(** * OpenDocument Security: a shallow embedding of [opendocument_security.py]

    The Python functions of the scanner are rendered as Rocq functions of the
    same names.  Text ([str]) and byte strings are both [string]s of 8-bit
    characters (a [str] is read through its UTF-8 encoding, in which the
    separators the scanner looks for, space, double quote and slash, are
    single bytes).  Logging and exceptions are made explicit by a small
    writer/error monad; the file system, the archive reader, the XML
    parser with its path language and the UTF-8 decoder stay abstract in a
    [World]. *)

From Stdlib Require Import String Ascii List Bool Arith Lia Permutation.
Import ListNotations.

Local Open Scope list_scope.
Local Open Scope string_scope.

(** ** Python string primitives *)

Module PyStr.

(** [s.startswith(prefix)] *)
Fixpoint startswith (s prefix : string) {struct prefix} : bool :=
  match prefix, s with
  | EmptyString, _ => true
  | String p prefix', String c s' => Ascii.eqb c p && startswith s' prefix'
  | String _ _, EmptyString => false
  end.

(** [sub in s] *)
Fixpoint contains (s sub : string) : bool :=
  startswith s sub
  || match s with
     | EmptyString => false
     | String _ s' => contains s' sub
     end.

(** [s.endswith(suffix)] *)
Fixpoint endswith (s suffix : string) : bool :=
  String.eqb s suffix
  || match s with
     | EmptyString => false
     | String _ s' => endswith s' suffix
     end.

(** [s[1:]] *)
Definition tail (s : string) : string :=
  match s with
  | EmptyString => EmptyString
  | String _ s' => s'
  end.

(** [s.replace(old, new)] for a non-empty [old]: a single scan from the left;
    after a match the scan resumes behind the matched characters, so
    occurrences never overlap and the inserted text is not scanned again.
    [skip] counts the characters of the current match still to be dropped. *)
Fixpoint replace_from (old new : string) (skip : nat) (s : string) : string :=
  match s with
  | EmptyString => EmptyString
  | String c s' =>
      match skip with
      | S k => replace_from old new k s'
      | O =>
          if startswith s old
          then new ++ replace_from old new (String.length old - 1) s'
          else String c (replace_from old new O s')
      end
  end.

Definition replace (s old new : string) : string := replace_from old new 0 s.

(** The scan of [replace] for the pattern of the path resolver. *)
Definition collapse (s : string) : string := replace s "/./" "/".

(** [s.split(sep)] for a one-character separator: empty pieces are kept and
    the empty string splits into one empty piece. *)
Fixpoint split (s : string) (sep : ascii) : list string :=
  match s with
  | EmptyString => [EmptyString]
  | String c s' =>
      if Ascii.eqb c sep then EmptyString :: split s' sep
      else match split s' sep with
           | piece :: pieces => String c piece :: pieces
           | [] => [String c EmptyString]
           end
  end.

(** [all(p(c) for c in s)] *)
Fixpoint all_chars (p : ascii -> bool) (s : string) : bool :=
  match s with
  | EmptyString => true
  | String c s' => p c && all_chars p s'
  end.

(** [l[-2]]; [None] stands for the [IndexError] of a list shorter than two. *)
Definition item_neg2 {A : Type} (l : list A) : option A :=
  match rev l with
  | _ :: x :: _ => Some x
  | _ => None
  end.

(** The double quote character and the one-character string holding it. *)
Definition dquote : ascii := Ascii.ascii_of_nat 34.
Definition dq : string := String dquote EmptyString.

(** [repr(s)] for a [str] of ASCII characters: single quotes around the
    text, or double quotes when it holds a single quote and no double one;
    the enclosing quote and the backslash are escaped, tab, line feed and
    carriage return are written [\t], [\n], [\r], and the other control
    characters [\xhh]. *)
Definition hex_digit (n : nat) : ascii :=
  if Nat.ltb n 10 then Ascii.ascii_of_nat (48 + n)
  else Ascii.ascii_of_nat (87 + n).

Definition backslash : ascii := Ascii.ascii_of_nat 92.

Fixpoint repr_body (quote : ascii) (s : string) : string :=
  match s with
  | EmptyString => EmptyString
  | String c s' =>
      let n := Ascii.nat_of_ascii c in
      (if Ascii.eqb c quote || Ascii.eqb c backslash
       then String backslash (String c EmptyString)
       else if Nat.eqb n 9 then String backslash "t"
       else if Nat.eqb n 10 then String backslash "n"
       else if Nat.eqb n 13 then String backslash "r"
       else if Nat.ltb n 32 || Nat.eqb n 127
       then String backslash
              (String "x" (String (hex_digit (n / 16))
                             (String (hex_digit (n mod 16)) EmptyString)))
       else String c EmptyString)
      ++ repr_body quote s'
  end.

Definition repr_ascii (s : string) : string :=
  let quote :=
    if contains s "'" && negb (contains s dq) then dquote else "'"%char in
  String quote (repr_body quote s ++ String quote EmptyString).

End PyStr.

(** ** Archive Path Resolver *)

Definition get_content_zip_path (content_path : string) : string :=
  let content_path := PyStr.replace content_path "/./" "/" in
  let content_path :=
    if PyStr.startswith content_path "/" then PyStr.tail content_path
    else content_path in
  if String.eqb content_path "" then "content.xml"
  else content_path ++ "/content.xml".

(** ** Parsed content trees *)

(** An [xml.etree.ElementTree.Element]: its qualified tag ([{uri}local]),
    its attribute dictionary and its children in document order. *)
#[local] Unset Elimination Schemes.
Inductive Element : Type :=
| Elem (tag : string) (attrib : list (string * string)) (children : list Element).
#[local] Set Elimination Schemes.

Definition tag (e : Element) : string :=
  match e with Elem t _ _ => t end.

Definition attrib (e : Element) : list (string * string) :=
  match e with Elem _ a _ => a end.

Definition children (e : Element) : list Element :=
  match e with Elem _ _ cs => cs end.

(** [dict[key]]; [None] stands for the [KeyError]. *)
Fixpoint dict_get (d : list (string * string)) (key : string) : option string :=
  match d with
  | [] => None
  | (k, v) :: d' => if String.eqb k key then Some v else dict_get d' key
  end.

(** ** Effects: the log, exceptions and recursion fuel *)

Inductive level : Type := WARNING | CRITICAL.

Inductive logarg : Type :=
| AStr (s : string)
| AElements (l : list Element)
| AAttrib (a : list (string * string)).

(** What a run leaves behind: the records handed to [LOGGER], and, as ghost
    events, the element searches started on a parsed tree. *)
Inductive event : Type :=
| Log (lvl : level) (fmt : string) (args : list logarg)
| Searched (element : string).

(** The exceptions of a run.  [KeyError] carries its argument: the key
    missing from an attribute dictionary, or the message of the archive
    reader for a member it does not hold.  [IndexError], [TypeError] and
    [SystemExit] come from the scanner's own code.  [LibraryError] is any
    other exception that comes out of a library call (reading a file or a
    member, searching with a path), named by its class. *)
Inductive exn : Type :=
| KeyError (key : string)
| IndexError
| TypeError
| SystemExit (status : nat)
| LibraryError (class_name : string).

Inductive result (A : Type) : Type :=
| Ret (a : A)
| Raise (e : exn)
| OutOfFuel.

Arguments Ret {A} a.
Arguments Raise {A} e.
Arguments OutOfFuel {A}.

Definition M (A : Type) : Type := (list event * result A)%type.

Definition ret {A : Type} (a : A) : M A := ([], Ret a).

Definition raise {A : Type} (e : exn) : M A := ([], Raise e).

Definition bind {A B : Type} (m : M A) (k : A -> M B) : M B :=
  match m with
  | (tr, Ret a) => let (tr', r) := k a in ((tr ++ tr')%list, r)
  | (tr, Raise e) => (tr, Raise e)
  | (tr, OutOfFuel) => (tr, OutOfFuel)
  end.

Definition emit (ev : event) : M unit := ([ev], Ret tt).

Definition log (lvl : level) (fmt : string) (args : list logarg) : M unit :=
  emit (Log lvl fmt args).

Notation "x <- m ;; k" := (bind m (fun x => k))
  (at level 61, m at next level, right associativity).
Notation "m ;; k" := (bind m (fun _ => k))
  (at level 61, right associativity).

(** [for x in l: body(x)] *)
Fixpoint for_each {A : Type} (l : list A) (body : A -> M unit) : M unit :=
  match l with
  | [] => ret tt
  | x :: l' => body x ;; for_each l' body
  end.

(** Truthiness of a value that is [None] or a [str]. *)
Definition truthy (v : option string) : bool :=
  match v with
  | Some s => negb (String.eqb s "")
  | None => false
  end.

(** ['{' + prefix + '}' + local]: concatenating [None] raises [TypeError]. *)
Definition qualified (prefix : option string) (local : string) : M string :=
  match prefix with
  | Some p => ret ("{" ++ p ++ "}" ++ local)
  | None => raise TypeError
  end.

(** What a library call gives back: a value, or an exception of the named
    class. *)
Inductive outcome (A : Type) : Type :=
| Done (a : A)
| Failed (class_name : string).

Arguments Done {A} a.
Arguments Failed {A} class_name.

Definition lift {A : Type} (o : outcome A) : M A :=
  match o with
  | Done a => ret a
  | Failed class_name => raise (LibraryError class_name)
  end.

(** ** The world outside the program *)

Inductive pytext : Type :=
| Str (s : string)
| Bytes (b : string).

(** A [zipfile.ZipFile]: the members of the central directory in order,
    each a name with its bytes. *)
Definition ZipFile : Type := list (string * string).

Definition namelist (z : ZipFile) : list string := map fst z.

Inductive zip_outcome : Type :=
| ZipOpened (z : ZipFile)
| ZipIOError
| ZipLargeZipFile (err : string)
| ZipBadZipfile.

(** The library calls the scanner relies on, each with the failures the
    source leaves unhandled.
    - [read_text path] is [open(path, 'r').read()]: the text of the file,
      or the exception of a file that cannot be opened or decoded
      ([UnicodeDecodeError]);
    - [member_fault name] names the exception that opening or reading the
      archive member [name] raises (a bad CRC, an encrypted member, an
      unsupported compression), [None] for a member that reads well;
    - [fromstring] is [ET.fromstring], with [None] for [ParseError];
    - [path_findall item path] is [item.findall(path)] for an argument
      that the element-path language does not read as a plain tag name
      (wildcards, steps, predicates): the elements selected, or the
      exception of a malformed path;
    - [repr_unicode] is [repr] on a [str] that holds characters outside
      ASCII, used in the message of the archive's [KeyError]. *)
Record World : Type := {
  path_exists : string -> bool;             (* os.path.exists *)
  open_zipfile : string -> zip_outcome;     (* zipfile.ZipFile(path, 'r') *)
  read_text : string -> outcome string;
  member_fault : string -> option string;
  fromstring : pytext -> option Element;
  decode_ignore : string -> string;         (* bytes.decode('utf-8', 'ignore') *)
  path_findall : Element -> string -> outcome (list Element);
  repr_unicode : string -> string
}.

(** [repr(s)] for a [str]. *)
Definition repr (W : World) (s : string) : string :=
  if PyStr.all_chars (fun c => Nat.ltb (Ascii.nat_of_ascii c) 128) s
  then PyStr.repr_ascii s
  else repr_unicode W s.

(** [od_zipfile.open(name).read()]: the archive keeps a dictionary from
    names to members, so the last member of that name is read; an unknown
    name raises the [KeyError] of [ZipFile.getinfo]. *)
Definition zip_read (W : World) (z : ZipFile) (name : string) : M string :=
  match find (fun m => String.eqb (fst m) name) (rev z) with
  | Some m =>
      match member_fault W name with
      | Some class_name => raise (LibraryError class_name)
      | None => ret (snd m)
      end
  | None =>
      raise (KeyError ("There is no item named " ++ repr W name
                       ++ " in the archive"))
  end.

(** ** Plain tag names

    [Element.findall] reads its argument as an element path.  A path that
    is one plain name selects the children with exactly that tag: a local
    name of letters, digits, hyphens and underscores, alone or behind a
    namespace in braces that is neither empty nor [*] and holds no closing
    brace.  ([{}name] and [{*}name] are wildcards of the path language.) *)

Definition name_char (c : ascii) : bool :=
  let n := Ascii.nat_of_ascii c in
  (Nat.leb 48 n && Nat.leb n 57)        (* 0-9 *)
  || (Nat.leb 65 n && Nat.leb n 90)     (* A-Z *)
  || (Nat.leb 97 n && Nat.leb n 122)    (* a-z *)
  || Nat.eqb n 45 || Nat.eqb n 95.      (* - _ *)

Definition plain_local (local : string) : bool :=
  negb (String.eqb local "") && PyStr.all_chars name_char local.

Definition plain_uri (uri : string) : bool :=
  negb (String.eqb uri "") && negb (String.eqb uri "*")
  && negb (PyStr.contains uri "}").

(** [s] cut at its first closing brace. *)
Fixpoint until_brace (s : string) : option (string * string) :=
  match s with
  | EmptyString => None
  | String c s' =>
      if Ascii.eqb c "}" then Some (EmptyString, s')
      else match until_brace s' with
           | Some (uri, rest) => Some (String c uri, rest)
           | None => None
           end
  end.

Definition plain_qname (element : string) : bool :=
  match element with
  | EmptyString => false
  | String c rest =>
      if Ascii.eqb c "{" then
        match until_brace rest with
        | Some (uri, local) => plain_uri uri && plain_local local
        | None => false
        end
      else plain_local element
  end.

(** [item.findall(element)]: for a plain name the direct children of
    [item] carrying that tag, in order. *)
Definition findall (W : World) (item : Element) (element : string)
  : outcome (list Element) :=
  if plain_qname element
  then Done (filter (fun child => String.eqb (tag child) element)
               (children item))
  else path_findall W item element.

(** ** Recursive Element Finder *)

(** [find_rec]; an exception of [findall] ends the search. *)
Fixpoint find_rec (W : World) (node : Element) (element : string)
  (result : list Element) : outcome (list Element) :=
  match node with
  | Elem _ _ items =>
      (fix loop (items : list Element) (result : list Element)
         : outcome (list Element) :=
         match items with
         | [] => Done result
         | item :: rest =>
             match findall W item element with
             | Failed class_name => Failed class_name
             | Done matches =>
                 match find_rec W item element (result ++ matches)%list with
                 | Failed class_name => Failed class_name
                 | Done result => loop rest result
                 end
             end
         end) items result
  end.



Definition has_tag (element : string) (e : Element) : bool :=
  String.eqb (tag e) element.


(** The tagged elements two levels and more below a node in the order of
    the search: child by child, the tagged children of a child before what
    lies below that child. *)
Fixpoint deep_finds (node : Element) (element : string) : list Element :=
  match node with
  | Elem _ _ items =>
      (fix walk (items : list Element) : list Element :=
         match items with
         | [] => []
         | item :: rest =>
             (filter (has_tag element) (children item)
              ++ deep_finds item element ++ walk rest)%list
         end) items
  end.


(** ** The scanner *)

Section Scanner.

Variable W : World.

(** *** Macro Detector, zip variant *)

Definition macro_banner_od : string := "> This OpenDocument contains macro !".

(** One of the two [if '...' in filepath:] blocks of the loop body. *)
Definition report_if_in (marker filepath : string) (display_banner : bool)
  : M bool :=
  if PyStr.contains filepath marker then
    display_banner <-
      (if negb display_banner
       then log CRITICAL macro_banner_od [] ;; ret true
       else ret display_banner) ;;
    log CRITICAL "  > %s" [AStr filepath] ;;
    ret display_banner
  else ret display_banner.

Fixpoint display_macro_od_loop (filepaths : list string) (display_banner : bool)
  : M bool :=
  match filepaths with
  | [] => ret display_banner
  | filepath :: rest =>
      display_banner <- report_if_in "Basic/" filepath display_banner ;;
      display_banner <- report_if_in "Scripts/" filepath display_banner ;;
      display_macro_od_loop rest display_banner
  end.

Definition display_macro_od (od_zipfile : ZipFile) : M bool :=
  display_macro_od_loop (namelist od_zipfile) false.

(** *** Namespace Resolver *)

Fixpoint get_tag_scan (tokens : list string) (tag : string)
  : M (option string) :=
  match tokens with
  | [] => ret None
  | i :: rest =>
      if PyStr.startswith i (tag ++ "=") then
        match PyStr.item_neg2 (PyStr.split i PyStr.dquote) with
        | Some v => ret (Some v)
        | None => raise IndexError
        end
      else get_tag_scan rest tag
  end.

Definition get_tag (content : pytext) (tag : string) : M (option string) :=
  let content :=
    match content with
    | Bytes b => decode_ignore W b
    | Str s => s
    end in
  get_tag_scan (PyStr.split content " "%char) tag.

(** *** Searches built on the finder *)

(** A call of [find_rec] from the scanner, with its ghost event. *)
Definition find_rec_call (node : Element) (element : string)
  (result : list Element) : M (list Element) :=
  emit (Searched element) ;;
  lift (find_rec W node element result).

Definition get_event_listeners (content : Element) (script_prefix : option string)
  (indent : string) : M unit :=
  element <- qualified script_prefix "event-listener" ;;
  result <- find_rec_call content element [] ;;
  for_each result (fun script =>
    log CRITICAL "%s> Found event listener: %s" [AStr indent; AAttrib (attrib script)]).

Definition get_ole_objects (content : Element) (draw_prefix : option string)
  : M (list Element) :=
  element <- qualified draw_prefix "object" ;;
  find_rec_call content element [].

(** *** Macro Detector, flat variant *)

Definition display_macro_flat (od_file : string) : M bool :=
  let display_banner := false in
  raw_content <- lift (read_text W od_file) ;;
  match fromstring W (Str raw_content) with
  | None =>
      log CRITICAL "This file seems corrupted" [] ;;
      ret false
  | Some root =>
      ooo_prefix <- get_tag (Str raw_content) "xmlns:ooo" ;;
      element <- qualified ooo_prefix "library-embedded" ;;
      list_library_embedded <- find_rec_call root element [] ;;
      match list_library_embedded with
      | [] => ret display_banner
      | _ :: _ =>
          log CRITICAL "> This Flat OpenDocument contains macro !" [] ;;
          log CRITICAL "  > %s" [AElements list_library_embedded] ;;
          ret true
      end
  end.

(** *** Event-Listener Inspector *)

Definition display_event_listener_flat (od_file indent : string) : M bool :=
  log WARNING "%s> Entering in %s" [AStr indent; AStr od_file] ;;
  raw_content <- lift (read_text W od_file) ;;
  match fromstring W (Str raw_content) with
  | None =>
      log CRITICAL "This file seems corrupted" [] ;;
      ret false
  | Some root =>
      office_prefix <- get_tag (Str raw_content) "xmlns:office" ;;
      script_prefix <- get_tag (Str raw_content) "xmlns:script" ;;
      if negb (truthy office_prefix) then
        log WARNING "%s> Exiting %s" [AStr indent; AStr od_file] ;;
        ret false
      else
        (if truthy script_prefix
         then get_event_listeners root script_prefix (indent ++ "  ")
         else ret tt) ;;
        log WARNING "%s> Exiting %s" [AStr indent; AStr od_file] ;;
        ret true
  end.

(** The zip variant calls itself for every OLE object; [fuel] bounds the
    depth of these calls and [OutOfFuel] marks a run that needs more. *)
Fixpoint display_event_listener_od (fuel : nat) (od_zipfile : ZipFile)
  (content_path indent : string) : M bool :=
  match fuel with
  | O => ([], OutOfFuel)
  | S fuel' =>
      let content_zip_path := get_content_zip_path content_path in
      log WARNING "%s> Entering in %s" [AStr indent; AStr content_zip_path] ;;
      raw_content <- zip_read W od_zipfile content_zip_path ;;
      match fromstring W (Bytes raw_content) with
      | None =>
          log CRITICAL "This file seems corrupted" [] ;;
          ret false
      | Some root =>
          office_prefix <- get_tag (Bytes raw_content) "xmlns:office" ;;
          script_prefix <- get_tag (Bytes raw_content) "xmlns:script" ;;
          draw_prefix <- get_tag (Bytes raw_content) "xmlns:draw" ;;
          xlink_prefix <- get_tag (Bytes raw_content) "xmlns:xlink" ;;
          if negb (truthy office_prefix) then
            log WARNING "%s> Exiting %s" [AStr indent; AStr content_zip_path] ;;
            ret false
          else
            (if truthy script_prefix
             then get_event_listeners root script_prefix (indent ++ "  ")
             else ret tt) ;;
            (if truthy draw_prefix && truthy xlink_prefix then
               ole_objects <- get_ole_objects root draw_prefix ;;
               for_each ole_objects (fun ole_object =>
                 key <- qualified xlink_prefix "href" ;;
                 draw_href <-
                   match dict_get (attrib ole_object) key with
                   | Some v => ret v
                   | None => raise (KeyError key)
                   end ;;
                 display_event_listener_od fuel' od_zipfile
                   (content_path ++ "/" ++ draw_href) (indent ++ "  ") ;;
                 ret tt)
             else ret tt) ;;
            log WARNING "%s> Exiting %s" [AStr indent; AStr content_zip_path] ;;
            ret true
      end
  end.

(** *** Top-Level Orchestrator *)

(** [main]; [Raise (SystemExit n)] is [sys.exit(n)], any other [Raise] an
    unhandled exception. *)
Definition main (fuel : nat) (od_path : string) : M unit :=
  (if negb (path_exists W od_path) then
     log CRITICAL "%s is not a file..." [AStr od_path] ;;
     raise (SystemExit 1)
   else ret tt) ;;
  match open_zipfile W od_path with
  | ZipIOError =>
      log CRITICAL "This file seems corrupted" [] ;;
      raise (SystemExit 1)
  | ZipLargeZipFile err =>
      log CRITICAL err [] ;;
      raise (SystemExit 1)
  | ZipBadZipfile =>
      log WARNING "> Parsing Flat OpenDocument %s" [AStr od_path] ;;
      is_macro <- display_macro_flat od_path ;;
      (if is_macro : bool
       then display_event_listener_flat od_path "" ;; ret tt
       else ret tt) ;;
      log WARNING "> Closing Flat OpenDocument %s" [AStr od_path]
  | ZipOpened od_zip_file =>
      log WARNING "> Parsing OpenDocument %s" [AStr od_path] ;;
      is_macro <- display_macro_od od_zip_file ;;
      (if is_macro : bool
       then display_event_listener_od fuel od_zip_file "" "" ;; ret tt
       else ret tt) ;;
      log WARNING "> Closing OpenDocument %s" [AStr od_path]
  end.

End Scanner.

(** The exit status the process ends with: 0 after a normal return, the
    status given to [sys.exit], and 1 after an unhandled exception. *)
Definition exit_status (r : result unit) : option nat :=
  match r with
  | Ret _ => Some 0
  | Raise (SystemExit n) => Some n
  | Raise _ => Some 1
  | OutOfFuel => None
  end.

(** ** Vocabulary of the properties

    Names for the log records and measures the properties speak about, and,
    under names starting with [spec_], the statements of the specification
    that are compared with the code. *)

(** The four laws of the Archive Path Resolver as the specification
    states them, for all strings. *)
Definition spec_resolver_laws : Prop :=
  get_content_zip_path "" = "content.xml"
  /\ (forall x, get_content_zip_path ("/" ++ x) = get_content_zip_path x)
  /\ (forall a b,
        get_content_zip_path (a ++ "/./" ++ b) = get_content_zip_path (a ++ "/" ++ b))
  /\ (forall p, p <> "" -> PyStr.startswith p "/" = false ->
        PyStr.contains p "/./" = false ->
        get_content_zip_path p = p ++ "/content.xml").

(** "The returned archive member path contains no [/./] segment." *)
Definition spec_no_dot_segment (content_path : string) : Prop :=
  PyStr.contains (get_content_zip_path content_path) "/./" = false.

(** A member name counts as a macro indicator when it contains [Basic/] or
    [Scripts/]. *)
Definition qualifies (filepath : string) : bool :=
  PyStr.contains filepath "Basic/" || PyStr.contains filepath "Scripts/".

Definition banner_od : event :=
  Log CRITICAL "> This OpenDocument contains macro !" [].

Definition report_od (filepath : string) : event :=
  Log CRITICAL "  > %s" [AStr filepath].

(** The report lines of one member: one per marker it contains. *)
Definition report_lines (filepath : string) : list event :=
  ((if PyStr.contains filepath "Basic/" then [report_od filepath] else [])
   ++ (if PyStr.contains filepath "Scripts/" then [report_od filepath] else []))%list.

(** The directories of a member name, that is, its path segments in front
    of a slash, and the zip-variant detector as the specification words
    it: a macro is reported exactly when [Basic] or [Scripts] is such a
    segment of some member. *)
Definition directories (filepath : string) : list string :=
  removelast (PyStr.split filepath "/"%char).

Definition has_segment (segment filepath : string) : bool :=
  existsb (String.eqb segment) (directories filepath).

Definition spec_display_macro_od : Prop :=
  forall od_zipfile,
    snd (display_macro_od od_zipfile) = Ret true
    <-> exists filepath,
          In filepath (namelist od_zipfile)
          /\ (has_segment "Basic" filepath = true
              \/ has_segment "Scripts" filepath = true).

(** The characters Python counts as ASCII whitespace: space, and tab to
    carriage return. *)
Definition is_whitespace (c : ascii) : bool :=
  let n := nat_of_ascii c in
  Nat.eqb n 32 || (Nat.leb 9 n && Nat.leb n 13).

Fixpoint blank_whitespace (s : string) : string :=
  match s with
  | EmptyString => EmptyString
  | String c s' =>
      String (if is_whitespace c then " "%char else c) (blank_whitespace s')
  end.

(** The whitespace-separated tokens of a text, as the specification reads
    the scan: the non-empty runs between whitespace characters. *)
Definition spec_tokens (text : string) : list string :=
  filter (fun t => negb (String.eqb t ""))
    (PyStr.split (blank_whitespace text) " "%char).

(** [value] is delimited by the last pair of double quotes of [token]. *)
Definition last_quoted (token value : string) : Prop :=
  exists pre post,
    token = pre ++ PyStr.dq ++ value ++ PyStr.dq ++ post
    /\ PyStr.contains value PyStr.dq = false
    /\ PyStr.contains post PyStr.dq = false.

(** The Namespace Resolver as the specification states it, over
    whitespace-separated tokens. *)
Definition spec_get_tag (W : World) : Prop :=
  forall text name,
    let key := "xmlns:" ++ name in
    ((forall t, In t (spec_tokens text) ->
        PyStr.startswith t (key ++ "=") = false) ->
     get_tag W (Str text) key = ret None)
    /\ (forall t value, In t (spec_tokens text) ->
          PyStr.startswith t (key ++ "=") = true ->
          last_quoted t value ->
          get_tag W (Str text) key = ret (Some value)).

(** The log records the inspector writes around a content stream. *)
Definition entering (indent name : string) : event :=
  Log WARNING "%s> Entering in %s" [AStr indent; AStr name].

Definition exiting (indent name : string) : event :=
  Log WARNING "%s> Exiting %s" [AStr indent; AStr name].

Definition corrupted : event := Log CRITICAL "This file seems corrupted" [].

(** The text of the [KeyError] that the archive raises for a name it does
    not hold. *)
Definition no_item (W : World) (name : string) : string :=
  "There is no item named " ++ repr W name ++ " in the archive".

(** The length of the longest member name of an archive. *)
Definition max_name_length (z : ZipFile) : nat :=
  fold_right Nat.max 0 (map String.length (namelist z)).



(** Unbounded recursion as the specification describes it: some archive on
    which no amount of fuel lets the zip-variant inspector come back.  (The
    specification asks in addition that two streams of the archive refer to
    each other; without that condition the statement is only easier to
    satisfy.) *)
Definition spec_unbounded_recursion : Prop :=
  exists (W : World) (od_zipfile : ZipFile) (content_path indent : string),
    forall fuel,
      snd (display_event_listener_od W fuel od_zipfile content_path indent)
      = OutOfFuel.

(** The directory reference a chain of nested calls has built from the
    archive root: every call passes ['{}/{}'.format(content_path, draw_href)]
    to the next one. *)
Definition followed (draw_hrefs : list string) : string :=
  fold_left (fun content_path draw_href => content_path ++ "/" ++ draw_href)
    draw_hrefs "".

(** The zip inspector finds a well-formed stream at [content_path]: the
    member is in the archive, the parser builds [root] from its bytes, and
    the four prefix look-ups return these values. *)
Definition resolved_stream (W : World) (od_zipfile : ZipFile)
  (content_path : string) (root : Element)
  (office_prefix script_prefix draw_prefix xlink_prefix : option string)
  : Prop :=
  exists raw_content,
    zip_read W od_zipfile (get_content_zip_path content_path)
    = ret raw_content
    /\ fromstring W (Bytes raw_content) = Some root
    /\ get_tag W (Bytes raw_content) "xmlns:office" = ret office_prefix
    /\ get_tag W (Bytes raw_content) "xmlns:script" = ret script_prefix
    /\ get_tag W (Bytes raw_content) "xmlns:draw" = ret draw_prefix
    /\ get_tag W (Bytes raw_content) "xmlns:xlink" = ret xlink_prefix.

(** The records and searches of the optional listener step. *)
Definition listener_trace (W : World) (root : Element)
  (script_prefix : option string) (indent : string) : list event :=
  fst (if truthy script_prefix
       then get_event_listeners W root script_prefix (indent ++ "  ")
       else ret tt).


(** A prefix with which no search is made ([None] or empty), or whose
    qualified names are plain. *)
Definition plain_or_absent (prefix : option string) : bool :=
  match prefix with
  | Some uri => String.eqb uri "" || plain_uri uri
  | None => true
  end.

(** A run that came back in a way that ends the process with status 0 or
    1: a return, an unhandled exception, or [sys.exit] with 0 or 1. *)
Definition ends_0_or_1 {A : Type} (r : result A) : Prop :=
  match r with
  | Ret _ => True
  | Raise (SystemExit n) => n <= 1
  | Raise _ => True
  | OutOfFuel => False
  end.

(** The record the inspectors write for a listener. *)
Definition found_listener (indent : string) (script : Element) : event :=
  Log CRITICAL "%s> Found event listener: %s"
    [AStr indent; AAttrib (attrib script)].

(** Log records that open the inspection of a stream, and records that
    close it: the exiting line and the corruption notice. *)
Definition opens (ev : event) : bool :=
  match ev with
  | Log WARNING fmt _ => String.eqb fmt "%s> Entering in %s"
  | _ => false
  end.

Definition closes (ev : event) : bool :=
  match ev with
  | Log WARNING fmt _ => String.eqb fmt "%s> Exiting %s"
  | Log CRITICAL fmt _ => String.eqb fmt "This file seems corrupted"
  | Searched _ => false
  end.

Definition count (p : event -> bool) (trace : list event) : nat :=
  length (filter p trace).

(** A computation whose returning runs leave [opened] opening records more,
    and [closed] closing records more, than they have of the other kind. *)
Definition returns_balance (opened closed : nat) {A : Type} (m : M A) : Prop :=
  forall trace a,
    m = (trace, Ret a) ->
    count opens trace + closed = count closes trace + opened.

(** ** Sample inputs *)

Module Sample.

(** The qualified name searched for in the sample trees. *)
Definition item : string := "{urn:sample}item".


(** A root over one child that holds [a] and [c], with [b] inside [a];
    all three carry the tag [item]. *)
Definition b : Element := Elem item [("id", "b")] [].
Definition a : Element := Elem item [("id", "a")] [b].
Definition c : Element := Elem item [("id", "c")] [].

(** An archive with one Basic module, and one without macros. *)
Definition with_basic : ZipFile :=
  [("mimetype", "application/vnd.oasis.opendocument.text");
   ("Basic/Standard/Module1.xml", "<module/>");
   ("content.xml", "<doc/>")].

Definition macro_free : ZipFile :=
  [("mimetype", "application/vnd.oasis.opendocument.text");
   ("content.xml", "<doc/>")].

(** [k="v"] *)
Definition attr (k v : string) : string :=
  k ++ "=" ++ PyStr.dq ++ v ++ PyStr.dq.

Definition newline : string := String (Ascii.ascii_of_nat 10) EmptyString.

(** A root element whose namespace declaration stands on a line of its
    own. *)
Definition multiline_text : string :=
  "<office:document" ++ newline ++ attr "xmlns:ooo" "urn:ooo" ++ "/>".

(** A root element with three declarations on one line. *)
Definition oneline_text : string :=
  "<office:document " ++ attr "xmlns:office" "urn:office" ++ " "
  ++ attr "xmlns:ooo" "urn:ooo" ++ " " ++ attr "xmlns:script" "urn:script"
  ++ " />".

(** Content streams and the trees the XML parser builds from them. *)
Definition plain_xml : string := "<doc/>".
Definition plain_tree : Element := Elem "doc" [] [].

Definition broken_xml : string := "<doc".

(** A well-formed stream whose character data holds an unquoted
    [xmlns:script=] token. *)
Definition unquoted_xml : string := "<doc>see xmlns:script=1 </doc>".

Definition declarations : string :=
  attr "xmlns:office" "urn:office" ++ " " ++ attr "xmlns:script" "urn:script"
  ++ " " ++ attr "xmlns:draw" "urn:draw" ++ " " ++ attr "xmlns:xlink" "urn:xlink".

(** A content stream with one OLE object; [href] is the text of the
    [xlink:href] attribute, with its leading space, or empty. *)
Definition object_xml (href : string) : string :=
  "<office:document-content " ++ declarations ++ " ><office:body><draw:object"
  ++ href ++ " /></office:body></office:document-content>".

Definition object_tree (attrs : list (string * string)) : Element :=
  Elem "{urn:office}document-content" []
    [Elem "{urn:office}body" [] [Elem "{urn:draw}object" attrs []]].

Definition href_attr (v : string) : string := " " ++ attr "xlink:href" v.

(** A content stream with one event listener. *)
Definition listener_attrib : list (string * string) :=
  [("{urn:script}language", "ooo:script");
   ("{urn:script}event-name", "dom:load")].

Definition listener_xml : string :=
  "<office:document-content " ++ declarations
  ++ " ><office:scripts><office:event-listeners><script:event-listener "
  ++ attr "script:language" "ooo:script" ++ " "
  ++ attr "script:event-name" "dom:load"
  ++ " /></office:event-listeners></office:scripts></office:document-content>".

Definition listener_tree : Element :=
  Elem "{urn:office}document-content" []
    [Elem "{urn:office}scripts" []
       [Elem "{urn:office}event-listeners" []
          [Elem "{urn:script}event-listener" listener_attrib []]]].

(** The parser on the sample streams; anything else is not well formed. *)
Definition parse_table : list (string * Element) :=
  [(plain_xml, plain_tree);
   (unquoted_xml, plain_tree);
   (object_xml "", object_tree []);
   (object_xml (href_attr "."), object_tree [("{urn:xlink}href", ".")]);
   (object_xml (href_attr ""), object_tree [("{urn:xlink}href", "")]);
   (object_xml (href_attr "./Object 1"),
    object_tree [("{urn:xlink}href", "./Object 1")]);
   (listener_xml, listener_tree)].

Fixpoint lookup {A : Type} (table : list (string * A)) (key : string)
  : option A :=
  match table with
  | [] => None
  | (k, v) :: table' => if String.eqb k key then Some v else lookup table' key
  end.

Definition parse (content : pytext) : option Element :=
  match content with
  | Str s => lookup parse_table s
  | Bytes b => lookup parse_table b
  end.

(** Archives: with a corrupted content stream, with an OLE object that has
    no [href], with two streams whose objects refer to each other, and with
    a nested object that holds an event listener. *)
Definition broken_archive : ZipFile :=
  [("Basic/Standard/Module1.xml", "<module/>"); ("content.xml", broken_xml)].

Definition undeclared_archive : ZipFile :=
  [("Basic/Standard/Module1.xml", "<module/>"); ("content.xml", plain_xml)].

Definition no_href_archive : ZipFile :=
  [("Scripts/python/Module1.py", "pass");
   ("content.xml", object_xml "")].

Definition cyclic_archive : ZipFile :=
  [("Scripts/python/Module1.py", "pass");
   ("content.xml", object_xml (href_attr "."));
   ("./content.xml", object_xml (href_attr ""))].

Definition nested_archive : ZipFile :=
  [("Scripts/python/Module1.py", "pass");
   ("content.xml", object_xml (href_attr "./Object 1"));
   ("Object 1/content.xml", listener_xml)].

Definition unquoted_archive : ZipFile :=
  [("Basic/Standard/Module1.xml", "<module/>"); ("content.xml", unquoted_xml)].

Definition archives : list (string * ZipFile) :=
  [("basic.odt", with_basic);
   ("clean.odt", macro_free);
   ("broken.odt", broken_archive);
   ("undeclared.odt", undeclared_archive);
   ("no_href.odt", no_href_archive);
   ("cyclic.odt", cyclic_archive);
   ("nested.odt", nested_archive);
   ("unquoted.odt", unquoted_archive)].

Definition flat_files : list (string * string) :=
  [("plain.fodt", plain_xml);
   ("broken.fodt", broken_xml);
   ("unquoted.fodt", unquoted_xml)].

Definition world : World := {|
  path_exists := fun path =>
    match lookup archives path, lookup flat_files path with
    | None, None => false
    | _, _ => true
    end;
  open_zipfile := fun path =>
    match lookup archives path with
    | Some z => ZipOpened z
    | None => ZipBadZipfile
    end;
  read_text := fun path =>
    match lookup flat_files path with
    | Some text => Done text
    | None => Failed "FileNotFoundError"
    end;
  member_fault := fun _ => None;
  fromstring := parse;
  decode_ignore := fun b => b;
  path_findall := fun _ _ => Failed "SyntaxError";
  repr_unicode := PyStr.repr_ascii
|}.

End Sample.

(** ** Further sample inputs *)

Module Cases.

Import Sample.

(** A declaration whose value holds a space. *)
Definition spaced_text : string :=
  "<office:document " ++ attr "xmlns:ooo" "urn ooo" ++ " />".

(** The listener of [listener_xml] in a stream that declares only the
    [office] and [script] prefixes. *)
Definition flat_listener_xml : string :=
  "<office:document " ++ attr "xmlns:office" "urn:office" ++ " "
  ++ attr "xmlns:script" "urn:script"
  ++ " ><office:scripts><office:event-listeners><script:event-listener "
  ++ attr "script:language" "ooo:script" ++ " "
  ++ attr "script:event-name" "dom:load"
  ++ " /></office:event-listeners></office:scripts></office:document>".

(** A flat document with an embedded Basic library. *)
Definition library_xml : string :=
  "<office:document " ++ attr "xmlns:office" "urn:office" ++ " "
  ++ attr "xmlns:ooo" "urn:ooo"
  ++ " ><office:scripts><ooo:library-embedded "
  ++ attr "ooo:name" "Standard" ++ " /></office:scripts></office:document>".

Definition library_element : Element :=
  Elem "{urn:ooo}library-embedded" [("{urn:ooo}name", "Standard")] [].

Definition library_tree : Element :=
  Elem "{urn:office}document" []
    [Elem "{urn:office}scripts" [] [library_element]].

(** The root holds two objects: the first refers to a stream that is not
    well formed, the second has no [href]. *)
Definition two_objects_xml : string :=
  "<office:document-content " ++ declarations ++ " ><office:body><draw:object"
  ++ href_attr "./Object 1"
  ++ " /><draw:object /></office:body></office:document-content>".

Definition two_objects_tree : Element :=
  Elem "{urn:office}document-content" []
    [Elem "{urn:office}body" []
       [Elem "{urn:draw}object" [("{urn:xlink}href", "./Object 1")] [];
        Elem "{urn:draw}object" [] []]].

Definition two_objects_archive : ZipFile :=
  [("Scripts/python/Module1.py", "pass");
   ("content.xml", two_objects_xml);
   ("Object 1/content.xml", broken_xml)].

Definition parse_table : list (string * Element) :=
  (Sample.parse_table
   ++ [(flat_listener_xml, listener_tree);
       (library_xml, library_tree);
       (two_objects_xml, two_objects_tree)])%list.

Definition parse (content : pytext) : option Element :=
  match content with
  | Str s => lookup parse_table s
  | Bytes b => lookup parse_table b
  end.

(** Archives with macros whose root stream is missing, and whose root
    stream holds a listener and no object. *)
Definition headless_archive : ZipFile :=
  [("Basic/Standard/Module1.xml", "<module/>")].

Definition listener_archive : ZipFile :=
  [("Scripts/python/Module1.py", "pass"); ("content.xml", flat_listener_xml)].

(** The root refers to [./Object 1], whose stream is missing, or is not
    well formed. *)
Definition dangling_archive : ZipFile :=
  [("Scripts/python/Module1.py", "pass");
   ("content.xml", object_xml (href_attr "./Object 1"))].

Definition broken_nested_archive : ZipFile :=
  [("Scripts/python/Module1.py", "pass");
   ("content.xml", object_xml (href_attr "./Object 1"));
   ("Object 1/content.xml", broken_xml)].

Definition archives : list (string * ZipFile) :=
  (Sample.archives
   ++ [("headless.odt", headless_archive);
       ("listener.odt", listener_archive);
       ("dangling.odt", dangling_archive);
       ("broken_nested.odt", broken_nested_archive);
       ("two_objects.odt", two_objects_archive)])%list.

Definition flat_files : list (string * string) :=
  (Sample.flat_files
   ++ [("listener.fodt", flat_listener_xml); ("library.fodt", library_xml)])%list.

(** [unreadable.odt] cannot be read at all, [huge.odt] needs the ZIP64
    extensions, and [binary.fodt] is neither an archive nor text that can
    be decoded. *)
Definition world : World := {|
  path_exists := fun path =>
    match lookup archives path, lookup flat_files path with
    | None, None =>
        String.eqb path "unreadable.odt" || String.eqb path "huge.odt"
        || String.eqb path "binary.fodt"
    | _, _ => true
    end;
  open_zipfile := fun path =>
    if String.eqb path "unreadable.odt" then ZipIOError
    else if String.eqb path "huge.odt"
    then ZipLargeZipFile "Filesize would require ZIP64 extensions"
    else match lookup archives path with
         | Some z => ZipOpened z
         | None => ZipBadZipfile
         end;
  read_text := fun path =>
    match lookup flat_files path with
    | Some text => Done text
    | None =>
        if String.eqb path "binary.fodt" then Failed "UnicodeDecodeError"
        else Failed "FileNotFoundError"
    end;
  member_fault := fun _ => None;
  fromstring := parse;
  decode_ignore := fun b => b;
  path_findall := fun _ _ => Failed "SyntaxError";
  repr_unicode := PyStr.repr_ascii
|}.

End Cases.

(** * Properties *)

(** ** Strings *)

Section StringFacts.

Import PyStr.

Lemma startswith_nil (s : string) : startswith s "" = true.
Proof. destruct s; reflexivity. Qed.

Lemma contains_cons (c : ascii) (s sub : string) :
  contains (String c s) sub = startswith (String c s) sub || contains s sub.
Proof. reflexivity. Qed.

Lemma contains_tail (c : ascii) (s sub : string) :
  contains (String c s) sub = false -> contains s sub = false.
Proof.
  rewrite contains_cons. intros H. apply orb_false_iff in H. tauto.
Qed.

Lemma contains_head (s sub : string) :
  contains s sub = false -> startswith s sub = false.
Proof.
  destruct s; simpl; intros H; apply orb_false_iff in H; tauto.
Qed.

Lemma endswith_cons (c : ascii) (s suffix : string) :
  endswith (String c s) suffix
  = String.eqb (String c s) suffix || endswith s suffix.
Proof. reflexivity. Qed.

Lemma endswith_tail (c : ascii) (s suffix : string) :
  endswith (String c s) suffix = false -> endswith s suffix = false.
Proof.
  rewrite endswith_cons. intros H. apply orb_false_iff in H. tauto.
Qed.

Lemma collapse_match (r : string) :
  collapse ("/./" ++ r) = String "/" (collapse r).
Proof. reflexivity. Qed.

Lemma collapse_other (c : ascii) (r : string) :
  startswith (String c r) "/./" = false ->
  collapse (String c r) = String c (collapse r).
Proof.
  intros H. unfold collapse, replace.
  change (replace_from "/./" "/" 0 (String c r))
    with (if startswith (String c r) "/./"
          then "/" ++ replace_from "/./" "/" 2 r
          else String c (replace_from "/./" "/" 0 r)).
  rewrite H. reflexivity.
Qed.

Lemma startswith_dotseg_inv (s : string) :
  startswith s "/./" = true -> exists r, s = "/./" ++ r.
Proof.
  destruct s as [|c1 [|c2 [|c3 r]]]; simpl; try discriminate.
  - rewrite andb_false_r. discriminate.
  - rewrite andb_false_r, andb_false_r. discriminate.
  - intros H.
    apply andb_true_iff in H as [H1 H]. apply andb_true_iff in H as [H2 H].
    apply andb_true_iff in H as [H3 _].
    apply Ascii.eqb_eq in H1, H2, H3. subst. exists r. reflexivity.
Qed.

(** Induction along the scan: a string is empty, starts with a match that
    the scan consumes whole, or starts with a character that is copied. *)
Lemma collapse_ind (P : string -> Prop) :
  P "" ->
  (forall r, P r -> P ("/./" ++ r)) ->
  (forall c r, startswith (String c r) "/./" = false -> P r -> P (String c r)) ->
  forall s, P s.
Proof.
  intros Hnil Hmatch Hother s.
  assert (H : forall n s, String.length s <= n -> P s).
  { clear s. induction n as [|n IH]; intros s Hn.
    - destruct s; [assumption | simpl in Hn; lia].
    - destruct s as [|c r]; [assumption|].
      destruct (startswith (String c r) "/./") eqn:E.
      + destruct (startswith_dotseg_inv _ E) as [r' Hr].
        rewrite Hr in *. apply Hmatch, IH. simpl in Hn. lia.
      + apply Hother; [assumption|]. apply IH. simpl in Hn. lia. }
  apply (H (String.length s)). lia.
Qed.

Lemma collapse_length (s : string) :
  String.length s <= 3 * String.length (collapse s).
Proof.
  induction s as [|r IH|c r E IH] using collapse_ind.
  - simpl. lia.
  - rewrite collapse_match.
    change (S (S (S (String.length r))) <= 3 * S (String.length (collapse r))).
    lia.
  - rewrite (collapse_other _ _ E).
    change (S (String.length r) <= 3 * S (String.length (collapse r))).
    lia.
Qed.

Lemma collapse_startswith_slash (s : string) :
  startswith (collapse s) "/" = startswith s "/".
Proof.
  destruct s as [|c r]; [reflexivity|].
  destruct (startswith (String c r) "/./") eqn:E.
  - destruct (startswith_dotseg_inv _ E) as [r' ->]. reflexivity.
  - rewrite (collapse_other _ _ E). reflexivity.
Qed.

Lemma collapse_startswith_dot_slash (s : string) :
  startswith (collapse s) "./" = startswith s "./".
Proof.
  destruct s as [|c r]; [reflexivity|].
  destruct (startswith (String c r) "/./") eqn:E.
  - destruct (startswith_dotseg_inv _ E) as [r' ->]. reflexivity.
  - rewrite (collapse_other _ _ E).
    change (Ascii.eqb c "." && startswith (collapse r) "/"
            = Ascii.eqb c "." && startswith r "/").
    now rewrite collapse_startswith_slash.
Qed.

Lemma collapse_eq_nil (s : string) : collapse s = "" -> s = "".
Proof.
  intros H. pose proof (collapse_length s) as L. rewrite H in L.
  destruct s; [reflexivity | simpl in L; lia].
Qed.

(** A string free of the pattern is left as it is. *)
Lemma collapse_id (s : string) : contains s "/./" = false -> collapse s = s.
Proof.
  induction s as [|c r IH]; [reflexivity|]. intros H.
  rewrite (collapse_other _ _ (contains_head _ _ H)).
  f_equal. apply IH. exact (contains_tail _ _ _ H).
Qed.

End StringFacts.

(** ** Archive Path Resolver *)

Section PathResolver.

Import PyStr.

Lemma collapse_no_dotseg (s : string) :
  contains s "/././" = false -> contains (collapse s) "/./" = false.
Proof.
  induction s as [|r IH|c r E IH] using collapse_ind; intros H.
  - reflexivity.
  - rewrite collapse_match, contains_cons.
    change (startswith (String "/" (collapse r)) "/./")
      with (startswith (collapse r) "./").
    rewrite collapse_startswith_dot_slash.
    pose proof (contains_head _ _ H) as H0.
    change (startswith ("/./" ++ r) "/././") with (startswith r "./") in H0.
    rewrite H0. simpl. apply IH.
    do 3 apply contains_tail in H. exact H.
  - rewrite (collapse_other _ _ E), contains_cons.
    change (startswith (String c (collapse r)) "/./")
      with (Ascii.eqb c "/" && startswith (collapse r) "./").
    rewrite collapse_startswith_dot_slash.
    change (Ascii.eqb c "/" && startswith r "./")
      with (startswith (String c r) "/./").
    rewrite E. simpl. apply IH. exact (contains_tail _ _ _ H).
Qed.

Lemma collapse_eqb_dot (s : string) :
  String.eqb (collapse s) "." = String.eqb s ".".
Proof.
  destruct s as [|c r]; [reflexivity|].
  destruct (startswith (String c r) "/./") eqn:E.
  - destruct (startswith_dotseg_inv _ E) as [r' ->]. reflexivity.
  - rewrite (collapse_other _ _ E). simpl. f_equal.
    destruct r as [|d r]; [reflexivity|].
    destruct (collapse (String d r)) eqn:C; [|reflexivity].
    apply collapse_eq_nil in C. discriminate.
Qed.

Lemma collapse_endswith (s : string) :
  endswith (collapse s) "/." = endswith s "/.".
Proof.
  induction s as [|r IH|c r E IH] using collapse_ind.
  - reflexivity.
  - rewrite collapse_match, endswith_cons, IH.
    change (String.eqb (String "/" (collapse r)) "/.")
      with (String.eqb (collapse r) ".").
    rewrite collapse_eqb_dot.
    change (endswith ("/./" ++ r) "/.")
      with (false || (false || (String.eqb r "." || endswith r "/."))).
    reflexivity.
  - rewrite (collapse_other _ _ E), !endswith_cons, IH. f_equal.
    change (Ascii.eqb c "/" && String.eqb (collapse r) "."
            = Ascii.eqb c "/" && String.eqb r ".").
    now rewrite collapse_eqb_dot.
Qed.

Lemma contains_content_xml (r : string) :
  contains r "/./" = false -> endswith r "/." = false ->
  contains (r ++ "/content.xml") "/./" = false.
Proof.
  induction r as [|c r IH]; intros Hc He; [reflexivity|].
  change (String c r ++ "/content.xml") with (String c (r ++ "/content.xml")).
  rewrite contains_cons.
  rewrite (IH (contains_tail _ _ _ Hc) (endswith_tail _ _ _ He)), orb_false_r.
  apply contains_head in Hc.
  destruct r as [|d [|e r]].
  - simpl. now rewrite andb_false_r.
  - simpl in He |- *.
    destruct (Ascii.eqb c "/"), (Ascii.eqb d "."); simpl in *; congruence.
  - exact Hc.
Qed.

Lemma startswith_dotseg_app (c : ascii) (a x : string) :
  startswith (String c a) "/./" = false -> endswith (String c a) "/." = false ->
  startswith (String c a ++ String "/" x) "/./" = false.
Proof.
  destruct a as [|d [|e a]]; intros Hs He.
  - simpl. now rewrite andb_false_r.
  - simpl in He |- *.
    destruct (Ascii.eqb c "/"), (Ascii.eqb d "."); simpl in *; congruence.
  - exact Hs.
Qed.

Lemma collapse_app_slash (a x : string) :
  endswith a "/." = false ->
  collapse (a ++ String "/" x) = collapse a ++ collapse (String "/" x).
Proof.
  induction a as [|r IH|c r E IH] using collapse_ind; intros He.
  - reflexivity.
  - change (("/./" ++ r) ++ String "/" x) with ("/./" ++ (r ++ String "/" x)).
    rewrite !collapse_match, IH; [reflexivity|].
    do 3 apply endswith_tail in He. exact He.
  - change (String c r ++ String "/" x) with (String c (r ++ String "/" x)).
    rewrite collapse_other by (apply startswith_dotseg_app; assumption).
    rewrite (collapse_other _ _ E), IH by exact (endswith_tail _ _ _ He).
    reflexivity.
Qed.

Lemma collapse_slash (x : string) :
  startswith x "./" = false -> collapse (String "/" x) = String "/" (collapse x).
Proof. intros H. apply collapse_other. exact H. Qed.

(** What the resolver does with the collapsed reference. *)
Lemma get_content_zip_path_collapse (p q : string) :
  collapse p = collapse q -> get_content_zip_path p = get_content_zip_path q.
Proof.
  unfold get_content_zip_path. fold (collapse p). fold (collapse q).
  now intros ->.
Qed.

End PathResolver.

Section PathResolverClaims.

Import PyStr.

(** C5 (as amended): resolving the empty reference gives [content.xml];
    a leading slash in front of [x] is dropped when [x] itself starts with
    neither [/] nor [./]; [a/./b] resolves like [a/b] when [a] does not end
    in [/.] and [b] does not start with [./]; and a non-empty reference with
    no leading slash and no [/./] resolves to itself followed by
    [/content.xml]. *)
Theorem get_content_zip_path_laws (x a b p : string) :
  get_content_zip_path "" = "content.xml"
  /\ (startswith x "/" = false -> startswith x "./" = false ->
      get_content_zip_path ("/" ++ x) = get_content_zip_path x)
  /\ (endswith a "/." = false -> startswith b "./" = false ->
      get_content_zip_path (a ++ "/./" ++ b) = get_content_zip_path (a ++ "/" ++ b))
  /\ (p <> "" -> startswith p "/" = false -> contains p "/./" = false ->
      get_content_zip_path p = p ++ "/content.xml").
Proof.
  split; [reflexivity|]. split; [|split].
  - intros Hs Hd. unfold get_content_zip_path.
    fold (collapse ("/" ++ x)). fold (collapse x).
    change ("/" ++ x) with (String "/" x).
    rewrite (collapse_slash _ Hd).
    change (startswith (String "/" (collapse x)) "/") with true.
    rewrite collapse_startswith_slash, Hs. reflexivity.
  - intros He Hd. apply get_content_zip_path_collapse.
    change (a ++ "/./" ++ b) with (a ++ String "/" ("./" ++ b)).
    change (a ++ "/" ++ b) with (a ++ String "/" b).
    rewrite !(collapse_app_slash _ _ He). f_equal.
    rewrite (collapse_slash _ Hd). reflexivity.
  - intros Hne Hs Hc. unfold get_content_zip_path. fold (collapse p).
    rewrite (collapse_id _ Hc), Hs.
    destruct p; [contradiction|reflexivity].
Qed.

(** A run of the amended laws on concrete references. *)
Lemma get_content_zip_path_laws_witness :
  get_content_zip_path "/Object 1" = get_content_zip_path "Object 1"
  /\ get_content_zip_path "Pictures/./Object 1"
     = get_content_zip_path "Pictures/Object 1"
  /\ get_content_zip_path "Object 1" = "Object 1/content.xml".
Proof.
  destruct (get_content_zip_path_laws "Object 1" "Pictures" "Object 1" "Object 1")
    as (_ & H1 & H2 & H3).
  split; [|split].
  - apply H1; reflexivity.
  - apply H2; reflexivity.
  - apply H3; [discriminate | reflexivity | reflexivity].
Defined.

(** C5 (as stated) fails: a second leading slash survives, and a [/./]
    that overlaps another one is not collapsed. *)
Lemma spec_resolver_laws_counterexample :
  get_content_zip_path ("/" ++ "/a") = "/a/content.xml"
  /\ get_content_zip_path "/a" = "a/content.xml"
  /\ get_content_zip_path ("x/." ++ "/./" ++ "y") = "x/./y/content.xml"
  /\ get_content_zip_path ("x/." ++ "/" ++ "y") = "x/y/content.xml"
  /\ ~ spec_resolver_laws.
Proof.
  repeat (split; [reflexivity|]).
  intros (_ & H & _). specialize (H "/a"). discriminate H.
Qed.

(** C6 (as amended): when the reference holds no two overlapping segments
    ([/././]) and does not end in [/.], the resolved member path contains
    no [/./]. *)
Theorem get_content_zip_path_no_dot_segment (content_path : string) :
  contains content_path "/././" = false ->
  endswith content_path "/." = false ->
  contains (get_content_zip_path content_path) "/./" = false.
Proof.
  intros Hc He. unfold get_content_zip_path. fold (collapse content_path).
  pose proof (collapse_no_dotseg _ Hc) as Hc'.
  pose proof (collapse_endswith content_path) as He'. rewrite He in He'.
  destruct (collapse content_path) as [|c r] eqn:C; [reflexivity|].
  destruct (startswith (String c r) "/") eqn:S.
  - cbn [tail]. apply contains_tail in Hc'. apply endswith_tail in He'.
    destruct r as [|d r]; [reflexivity|].
    change (String.eqb (String d r) "") with false. cbv iota.
    now apply contains_content_xml.
  - change (String.eqb (String c r) "") with false. cbv iota.
    now apply contains_content_xml.
Qed.

Lemma get_content_zip_path_no_dot_segment_witness :
  contains (get_content_zip_path "/./Object 1/./Object 2") "/./" = false.
Proof.
  apply get_content_zip_path_no_dot_segment; reflexivity.
Defined.

(** C6 (as stated) fails: of two overlapping segments only the first is
    replaced, and a reference ending in [/.] meets the appended
    [/content.xml]. *)
Lemma spec_no_dot_segment_counterexample :
  get_content_zip_path "a/././b" = "a/./b/content.xml"
  /\ get_content_zip_path "a/." = "a/./content.xml"
  /\ ~ spec_no_dot_segment "a/././b"
  /\ ~ (forall content_path, spec_no_dot_segment content_path).
Proof.
  split; [reflexivity|]. split; [reflexivity|]. split.
  - unfold spec_no_dot_segment. discriminate.
  - intros H. specialize (H "a/././b"). discriminate H.
Qed.

End PathResolverClaims.

(** ** Recursive Element Finder *)

Section Finder.

Variable W : World.

Lemma Element_ind (P : Element -> Prop) :
  (forall t a cs, Forall P cs -> P (Elem t a cs)) -> forall e, P e.
Proof.
  intros H. fix IH 1. intros [t a cs]. apply H.
  induction cs as [|c cs IHcs]; constructor; [apply IH | exact IHcs].
Qed.

Lemma find_rec_nil (t : string) (a : list (string * string))
  (element : string) (result : list Element) :
  find_rec W (Elem t a []) element result = Done result.
Proof. reflexivity. Qed.

Lemma find_rec_cons (t : string) (a : list (string * string))
  (item : Element) (rest : list Element) (element : string)
  (result : list Element) :
  find_rec W (Elem t a (item :: rest)) element result
  = match findall W item element with
    | Failed class_name => Failed class_name
    | Done matches =>
        match find_rec W item element (result ++ matches)%list with
        | Failed class_name => Failed class_name
        | Done result' => find_rec W (Elem t a rest) element result'
        end
    end.
Proof. reflexivity. Qed.

Lemma findall_plain (item : Element) (element : string) :
  plain_qname element = true ->
  findall W item element = Done (filter (has_tag element) (children item)).
Proof. intros H. unfold findall. now rewrite H. Qed.

Lemma deep_finds_cons (t : string) (a : list (string * string))
  (item : Element) (rest : list Element) (element : string) :
  deep_finds (Elem t a (item :: rest)) element
  = (filter (has_tag element) (children item)
     ++ deep_finds item element ++ deep_finds (Elem t a rest) element)%list.
Proof. reflexivity. Qed.

(** With a plain name the finder does not fail and only appends, in the
    order of [deep_finds]. *)
Lemma find_rec_plain (node : Element) (element : string) :
  plain_qname element = true ->
  forall result,
    find_rec W node element result
    = Done (result ++ deep_finds node element)%list.
Proof.
  intros Hp. induction node as [t a cs IH] using Element_ind.
  induction IH as [|item rest Hitem _ IHrest]; intros result.
  - rewrite find_rec_nil. cbn. now rewrite app_nil_r.
  - rewrite find_rec_cons, (findall_plain _ _ Hp), Hitem, IHrest.
    rewrite deep_finds_cons. now rewrite <- !app_assoc.
Qed.










End Finder.


(** ** Namespace Resolver *)

Section NamespaceResolver.

Import PyStr.

Variable W : World.

Lemma split_nonempty (s : string) (sep : ascii) : split s sep <> [].
Proof.
  destruct s as [|c s]; simpl; [discriminate|].
  destruct (Ascii.eqb c sep); [discriminate|].
  destruct (split s sep); discriminate.
Qed.

Lemma split_app (pre rest : string) (sep : ascii) :
  split (pre ++ String sep rest) sep = (split pre sep ++ split rest sep)%list.
Proof.
  induction pre as [|c pre IH].
  - simpl. now rewrite Ascii.eqb_refl.
  - change (String c pre ++ String sep rest)
      with (String c (pre ++ String sep rest)).
    cbn [split]. rewrite IH.
    destruct (Ascii.eqb c sep); [reflexivity|].
    pose proof (split_nonempty pre sep) as N.
    destruct (split pre sep); [contradiction | reflexivity].
Qed.

Lemma split_none (s : string) (sep : ascii) :
  contains s (String sep "") = false -> split s sep = [s].
Proof.
  induction s as [|c s IH]; intros H; [reflexivity|].
  pose proof (contains_head _ _ H) as H0.
  apply contains_tail in H.
  cbn [startswith] in H0. rewrite andb_true_r in H0.
  cbn [split]. now rewrite H0, (IH H).
Qed.

Lemma item_neg2_app {A : Type} (l : list A) (x y : A) :
  item_neg2 (l ++ [x; y])%list = Some x.
Proof. unfold item_neg2. now rewrite rev_app_distr. Qed.

Lemma split_last_quoted (token value : string) :
  last_quoted token value ->
  item_neg2 (split token dquote) = Some value.
Proof.
  intros (pre & post & -> & Hv & Hp). unfold dq.
  change (String dquote "" ++ value ++ String dquote "" ++ post)
    with (String dquote (value ++ String dquote post)).
  rewrite !split_app, (split_none _ _ Hv), (split_none _ _ Hp).
  apply item_neg2_app.
Qed.

Lemma get_tag_scan_skip (before rest : list string) (tag : string) :
  Forall (fun t => startswith t (tag ++ "=") = false) before ->
  get_tag_scan (before ++ rest)%list tag = get_tag_scan rest tag.
Proof.
  induction 1 as [|t before Ht _ IH]; [reflexivity|].
  cbn [app get_tag_scan]. now rewrite Ht.
Qed.

(** C4 (as amended): tokens are the pieces between single space characters.
    When no such token begins with [key=], the resolver returns [None];
    otherwise it returns, for the first such token, the value delimited by
    the last pair of double quotes of that token, whatever stands in the
    tokens before and after it. *)
Theorem get_tag_spec (text tag : string) :
  (Forall (fun t => startswith t (tag ++ "=") = false) (split text " ") ->
   get_tag W (Str text) tag = ret None)
  /\ (forall before token after value,
        split text " " = (before ++ token :: after)%list ->
        Forall (fun t => startswith t (tag ++ "=") = false) before ->
        startswith token (tag ++ "=") = true ->
        last_quoted token value ->
        get_tag W (Str text) tag = ret (Some value)).
Proof.
  unfold get_tag. split.
  - intros H. rewrite <- (app_nil_r (split text " ")).
    now rewrite (get_tag_scan_skip _ _ _ H).
  - intros before token after value -> Hb Ht Hq.
    rewrite (get_tag_scan_skip _ _ _ Hb). cbn [get_tag_scan].
    now rewrite Ht, (split_last_quoted _ _ Hq).
Qed.

End NamespaceResolver.

Lemma get_tag_spec_witness :
  get_tag Sample.world (Str Sample.oneline_text) "xmlns:draw" = ret None
  /\ get_tag Sample.world (Str Sample.oneline_text) "xmlns:ooo"
     = ret (Some "urn:ooo").
Proof.
  destruct (get_tag_spec Sample.world Sample.oneline_text "xmlns:draw") as [H1 _].
  destruct (get_tag_spec Sample.world Sample.oneline_text "xmlns:ooo") as [_ H2].
  split.
  - apply H1. vm_compute. repeat constructor.
  - apply (H2 ["<office:document"; Sample.attr "xmlns:office" "urn:office"]
              (Sample.attr "xmlns:ooo" "urn:ooo")
              [Sample.attr "xmlns:script" "urn:script"; "/>"]).
    + reflexivity.
    + repeat constructor.
    + reflexivity.
    + exists "xmlns:ooo=", "". repeat split; reflexivity.
Defined.

(** C4 (as stated) fails: a declaration that follows a line break, not a
    space, is a whitespace-separated token of the text, yet the resolver
    does not see it. *)
Lemma spec_get_tag_counterexample :
  In (Sample.attr "xmlns:ooo" "urn:ooo" ++ "/>")
    (spec_tokens Sample.multiline_text)
  /\ last_quoted (Sample.attr "xmlns:ooo" "urn:ooo" ++ "/>") "urn:ooo"
  /\ (forall W, get_tag W (Str Sample.multiline_text) "xmlns:ooo" = ret None)
  /\ (forall W, ~ spec_get_tag W).
Proof.
  assert (Hin : In (Sample.attr "xmlns:ooo" "urn:ooo" ++ "/>")
                  (spec_tokens Sample.multiline_text)).
  { vm_compute. right. left. reflexivity. }
  assert (Hq : last_quoted (Sample.attr "xmlns:ooo" "urn:ooo" ++ "/>") "urn:ooo").
  { exists "xmlns:ooo=", "/>". repeat split; reflexivity. }
  split; [exact Hin|]. split; [exact Hq|]. split; [reflexivity|].
  intros W H.
  destruct (H Sample.multiline_text "ooo") as [_ H2].
  specialize (H2 _ _ Hin eq_refl Hq). discriminate H2.
Qed.

(** ** Macro Detector, zip variant *)

Section MacroDetectorOd.

Variable W : World.

Lemma report_if_in_eq (marker filepath : string) (display_banner : bool) :
  report_if_in marker filepath display_banner
  = if PyStr.contains filepath marker
    then ((if display_banner then [] else [banner_od])
            ++ [Log CRITICAL "  > %s" [AStr filepath]], Ret true)%list
    else ([], Ret display_banner).
Proof.
  unfold report_if_in.
  destruct (PyStr.contains filepath marker), display_banner; reflexivity.
Qed.

Lemma display_macro_od_loop_eq (filepaths : list string) :
  forall display_banner,
    display_macro_od_loop filepaths display_banner
    = if display_banner then (flat_map report_lines filepaths, Ret true)
      else if existsb qualifies filepaths
           then (banner_od :: flat_map report_lines filepaths, Ret true)
           else ([], Ret false).
Proof.
  induction filepaths as [|filepath rest IH]; intros display_banner.
  - destruct display_banner; reflexivity.
  - cbn [display_macro_od_loop existsb flat_map].
    assert (Hq : qualifies filepath
                 = PyStr.contains filepath "Basic/"
                   || PyStr.contains filepath "Scripts/") by reflexivity.
    assert (Hr : report_lines filepath
                 = ((if PyStr.contains filepath "Basic/"
                     then [report_od filepath] else [])
                    ++ (if PyStr.contains filepath "Scripts/"
                        then [report_od filepath] else []))%list) by reflexivity.
    rewrite Hq, Hr, report_if_in_eq. clear Hq Hr.
    destruct (PyStr.contains filepath "Basic/"); cbn [bind];
      rewrite report_if_in_eq;
      destruct (PyStr.contains filepath "Scripts/"); cbn [bind];
      rewrite IH; destruct display_banner; cbn [app orb];
      try reflexivity; destruct (existsb qualifies rest); reflexivity.
Qed.

Lemma report_lines_not_banner (filepaths : list string) :
  ~ In banner_od (flat_map report_lines filepaths).
Proof.
  intros H. apply in_flat_map in H as (p & _ & H). unfold report_lines in H.
  apply in_app_or in H.
  destruct (PyStr.contains p "Basic/"), (PyStr.contains p "Scripts/");
    cbn in H; intuition discriminate.
Qed.

Lemma report_lines_In (filepath : string) (filepaths : list string) :
  In filepath filepaths -> qualifies filepath = true ->
  In (report_od filepath) (flat_map report_lines filepaths).
Proof.
  intros Hin Hq. apply in_flat_map. exists filepath. split; [exact Hin|].
  unfold qualifies in Hq. unfold report_lines.
  destruct (PyStr.contains filepath "Basic/"); [now left|].
  destruct (PyStr.contains filepath "Scripts/"); [now left | discriminate].
Qed.

Lemma split_head (p : string) (sep : ascii) (h : string) (t : list string) :
  PyStr.split p sep = h :: t -> t <> [] -> exists b, p = h ++ String sep b.
Proof.
  revert h t. induction p as [|c p IH]; intros h t; cbn [PyStr.split].
  - intros H. injection H as _ <-. contradiction.
  - destruct (Ascii.eqb c sep) eqn:E.
    + apply Ascii.eqb_eq in E. subst c. intros H _. injection H as <- _.
      exists p. reflexivity.
    + destruct (PyStr.split p sep) as [|h' t'] eqn:S; intros H Ht.
      * injection H as _ <-. contradiction.
      * injection H as <- <-. destruct (IH h' t' eq_refl Ht) as [b ->].
        exists b. reflexivity.
Qed.

Lemma directories_In (p : string) (sep : ascii) (segment : string) :
  In segment (removelast (PyStr.split p sep)) ->
  exists a b, p = a ++ segment ++ String sep b.
Proof.
  induction p as [|c p IH]; cbn [PyStr.split]; [intros []|].
  destruct (Ascii.eqb c sep) eqn:E.
  - apply Ascii.eqb_eq in E. subst c.
    destruct (PyStr.split p sep) as [|h t] eqn:S;
      [exfalso; exact (split_nonempty p sep S)|].
    intros [<- | H].
    + exists "", p. reflexivity.
    + destruct (IH H) as (a & b & ->). exists (String sep a), b. reflexivity.
  - destruct (PyStr.split p sep) as [|h t] eqn:S;
      [exfalso; exact (split_nonempty p sep S)|].
    destruct t as [|t1 t]; [intros []|].
    intros [<- | H].
    + destruct (split_head p sep h (t1 :: t) S) as [b ->]; [discriminate|].
      exists "", b. reflexivity.
    + destruct IH as (a & b & ->); [right; exact H|].
      exists (String c a), b. reflexivity.
Qed.

Lemma startswith_app (s rest : string) : PyStr.startswith (s ++ rest) s = true.
Proof.
  induction s as [|c s IH]; [reflexivity|].
  cbn. now rewrite Ascii.eqb_refl, IH.
Qed.

Lemma contains_start (s sub : string) :
  PyStr.startswith s sub = true -> PyStr.contains s sub = true.
Proof. intros H. destruct s; cbn; now rewrite H. Qed.

Lemma contains_app (a s rest : string) :
  PyStr.contains (a ++ s ++ rest) s = true.
Proof.
  induction a as [|c a IH];
    [apply contains_start; exact (startswith_app s rest)|].
  change (String c a ++ s ++ rest) with (String c (a ++ s ++ rest)).
  rewrite contains_cons, IH. apply orb_true_r.
Qed.

(** A member with the directory [segment] contains [segment/]. *)
Lemma has_segment_contains (segment filepath : string) :
  has_segment segment filepath = true ->
  PyStr.contains filepath (segment ++ "/") = true.
Proof.
  unfold has_segment, directories. intros H.
  apply existsb_exists in H as (x & Hin & Hx).
  apply String.eqb_eq in Hx. subst x.
  destruct (directories_In _ _ _ Hin) as (a & b & ->).
  replace (segment ++ String "/" b) with ((segment ++ "/") ++ b).
  - apply contains_app.
  - clear. induction segment as [|c s IH]; [reflexivity|].
    cbn [append]. now rewrite IH.
Qed.

(** C3 (as amended): the zip-variant detector returns true exactly when
    some member name contains the text [Basic/] or [Scripts/], anywhere:
    a member with a directory [Basic] or [Scripts] qualifies, and so does
    one with a directory whose name only ends that way.  When a member
    qualifies, the output is the banner, once and first, followed by the
    report lines, among them one for every qualifying member; otherwise the
    detector emits nothing and returns false. *)
Theorem display_macro_od_spec (od_zipfile : ZipFile) :
  (snd (display_macro_od od_zipfile) = Ret true
   <-> exists filepath, In filepath (namelist od_zipfile)
         /\ (PyStr.contains filepath "Basic/" = true
             \/ PyStr.contains filepath "Scripts/" = true))
  /\ (forall filepath,
        has_segment "Basic" filepath = true
        \/ has_segment "Scripts" filepath = true ->
        qualifies filepath = true)
  /\ (existsb qualifies (namelist od_zipfile) = true ->
      display_macro_od od_zipfile
      = (Log CRITICAL "> This OpenDocument contains macro !" []
           :: flat_map report_lines (namelist od_zipfile), Ret true)
      /\ ~ In (Log CRITICAL "> This OpenDocument contains macro !" [])
             (flat_map report_lines (namelist od_zipfile))
      /\ forall filepath, In filepath (namelist od_zipfile) ->
           qualifies filepath = true ->
           In (report_od filepath) (flat_map report_lines (namelist od_zipfile)))
  /\ (existsb qualifies (namelist od_zipfile) = false ->
      display_macro_od od_zipfile = ([], Ret false)).
Proof.
  unfold display_macro_od. rewrite display_macro_od_loop_eq.
  split; [|split; [|split]].
  - destruct (existsb qualifies (namelist od_zipfile)) eqn:E; cbn [snd].
    + split; [intros _ | reflexivity].
      apply existsb_exists in E as (p & Hin & Hq). exists p. split; [exact Hin|].
      unfold qualifies in Hq. now apply orb_true_iff in Hq.
    + split; [discriminate|]. intros (p & Hin & Hq).
      assert (existsb qualifies (namelist od_zipfile) = true) as E'.
      { apply existsb_exists. exists p. split; [exact Hin|].
        unfold qualifies. now apply orb_true_iff. }
      congruence.
  - intros filepath [H | H]; apply has_segment_contains in H;
      unfold qualifies; apply orb_true_iff; [now left | now right].
  - intros ->. split; [reflexivity|]. split.
    + apply report_lines_not_banner.
    + intros p. apply report_lines_In.
  - intros ->. reflexivity.
Qed.

End MacroDetectorOd.

Lemma display_macro_od_spec_witness :
  display_macro_od Sample.with_basic
  = ([Log CRITICAL "> This OpenDocument contains macro !" [];
      report_od "Basic/Standard/Module1.xml"], Ret true)
  /\ qualifies "Basic/Standard/Module1.xml" = true
  /\ display_macro_od Sample.macro_free = ([], Ret false).
Proof.
  destruct (display_macro_od_spec Sample.with_basic) as (_ & H2 & H3 & _).
  destruct (display_macro_od_spec Sample.macro_free) as (_ & _ & _ & H4).
  split; [apply H3; reflexivity|].
  split; [apply H2; left; reflexivity | apply H4; reflexivity].
Defined.

(** C3 (as stated) fails: the markers are looked for as text, not as path
    segments, so a member below a directory [NotBasic] is reported as a
    macro although [Basic] is none of its directories. *)
Lemma spec_display_macro_od_counterexample :
  display_macro_od [("NotBasic/readme.txt", "")]
  = ([Log CRITICAL "> This OpenDocument contains macro !" [];
      report_od "NotBasic/readme.txt"], Ret true)
  /\ directories "NotBasic/readme.txt" = ["NotBasic"]
  /\ has_segment "Basic" "NotBasic/readme.txt" = false
  /\ has_segment "Scripts" "NotBasic/readme.txt" = false
  /\ ~ spec_display_macro_od.
Proof.
  repeat (split; [reflexivity|]).
  intros H.
  destruct (H [("NotBasic/readme.txt", "")]) as [H1 _].
  destruct (H1 eq_refl) as (p & [<- | []] & [Hs | Hs]); discriminate Hs.
Qed.
(** ** Inspection of one content stream *)

Section Inspection.

Variable W : World.

Lemma for_each_log {A : Type} (l : list A) (lvl : level) (fmt : string)
  (args : A -> list logarg) :
  for_each l (fun x => log lvl fmt (args x))
  = (map (fun x => Log lvl fmt (args x)) l, Ret tt).
Proof.
  induction l as [|x l IH]; [reflexivity|].
  cbn [for_each map]. rewrite IH. reflexivity.
Qed.


Lemma until_brace_app (uri local : string) :
  PyStr.contains uri "}" = false ->
  until_brace (uri ++ String "}" local) = Some (uri, local).
Proof.
  induction uri as [|c uri IH]; intros H; [reflexivity|].
  cbn [PyStr.contains PyStr.startswith] in H.
  apply orb_false_iff in H as [Hc Hrest].
  rewrite andb_true_r in Hc.
  change (String c uri ++ String "}" local)
    with (String c (uri ++ String "}" local)).
  cbn [until_brace]. now rewrite Hc, (IH Hrest).
Qed.

(** A plain namespace in braces in front of a plain local name is a plain
    qualified name. *)
Lemma plain_qname_qualified (uri local : string) :
  plain_uri uri = true -> plain_local local = true ->
  plain_qname ("{" ++ uri ++ "}" ++ local) = true.
Proof.
  intros Hu Hl.
  change ("{" ++ uri ++ "}" ++ local)
    with (String "{" (uri ++ String "}" local)).
  cbn [plain_qname]. rewrite Ascii.eqb_refl.
  pose proof Hu as Hu'. unfold plain_uri in Hu'.
  apply andb_true_iff in Hu' as [_ Hb]. apply negb_true_iff in Hb.
  now rewrite (until_brace_app _ _ Hb), Hu, Hl.
Qed.


Lemma truthy_nonempty (p : string) : p <> "" -> truthy (Some p) = true.
Proof. intros H. cbn. now apply negb_true_iff, String.eqb_neq. Qed.

(** With a plain namespace a search from the scanner returns what lies two
    levels and more below the node. *)
Lemma find_rec_call_plain (node : Element) (uri local : string) :
  plain_uri uri = true -> plain_local local = true ->
  find_rec_call W node ("{" ++ uri ++ "}" ++ local) []
  = ([Searched ("{" ++ uri ++ "}" ++ local)],
     Ret (deep_finds node ("{" ++ uri ++ "}" ++ local))).
Proof.
  intros Hu Hl. unfold find_rec_call.
  rewrite (find_rec_plain W _ _ (plain_qname_qualified _ _ Hu Hl)).
  reflexivity.
Qed.

Lemma get_event_listeners_Some (content : Element) (p indent : string) :
  plain_uri p = true ->
  get_event_listeners W content (Some p) indent
  = (Searched ("{" ++ p ++ "}event-listener")
       :: map (found_listener indent)
            (deep_finds content ("{" ++ p ++ "}event-listener")),
     Ret tt).
Proof.
  intros Hp. unfold get_event_listeners. cbn [qualified bind ret].
  rewrite (find_rec_call_plain content p "event-listener" Hp eq_refl).
  cbn [bind app]. unfold log.
  change (fun script : Element =>
            emit (Log CRITICAL "%s> Found event listener: %s"
                    [AStr indent; AAttrib (attrib script)]))
    with (fun script : Element =>
            log CRITICAL "%s> Found event listener: %s"
              [AStr indent; AAttrib (attrib script)]).
  rewrite for_each_log. reflexivity.
Qed.

(** The optional listener search of both inspectors returns when the
    [script] prefix is absent or plain. *)
Lemma listeners_step (content : Element) (script_prefix : option string)
  (indent : string) :
  plain_or_absent script_prefix = true ->
  exists trace,
    (if truthy script_prefix
     then get_event_listeners W content script_prefix indent
     else ret tt) = (trace, Ret tt).
Proof.
  intros Hp. destruct script_prefix as [p|]; [|eexists; reflexivity].
  cbn [truthy]. destruct (String.eqb p "") eqn:E; cbn [negb].
  - eexists. reflexivity.
  - cbn [plain_or_absent] in Hp. rewrite E in Hp.
    rewrite (get_event_listeners_Some _ _ _ Hp). eexists. reflexivity.
Qed.

Lemma listeners_step_trace (content : Element)
  (script_prefix : option string) (indent : string) :
  plain_or_absent script_prefix = true ->
  (if truthy script_prefix
   then get_event_listeners W content script_prefix (indent ++ "  ")
   else ret tt)
  = (listener_trace W content script_prefix indent, Ret tt).
Proof.
  intros Hp. unfold listener_trace.
  destruct (listeners_step content script_prefix (indent ++ "  ") Hp)
    as [t Ht].
  revert Ht. destruct (truthy script_prefix); intros ->; reflexivity.
Qed.

(** A prefix look-up returns, or raises [IndexError]; it logs nothing. *)
Lemma get_tag_cases (content : pytext) (tag : string) :
  (exists v, get_tag W content tag = ret v)
  \/ get_tag W content tag = raise IndexError.
Proof.
  unfold get_tag. generalize (PyStr.split
    match content with Bytes b => decode_ignore W b | Str s => s end " ").
  intros tokens. induction tokens as [|t tokens IH]; cbn [get_tag_scan].
  - left. now exists None.
  - destruct (PyStr.startswith t _); [|exact IH].
    destruct (PyStr.item_neg2 _) as [v|]; [left; now exists (Some v) | now right].
Qed.

Lemma display_macro_od_qualifying (od_zipfile : ZipFile) :
  existsb qualifies (namelist od_zipfile) = true ->
  display_macro_od od_zipfile
  = (banner_od :: flat_map report_lines (namelist od_zipfile), Ret true).
Proof.
  intros Hq. unfold display_macro_od.
  now rewrite display_macro_od_loop_eq, Hq.
Qed.

(** C2: on a well-formed flat document without an [xmlns:ooo] token the
    flat-variant detector starts no element search, but it does not return
    false either: building the qualified name from [None] raises
    [TypeError], which nothing handles, and [main] ends with it. *)
Theorem display_macro_flat_without_ooo (od_file raw_content : string)
  (root : Element) :
  read_text W od_file = Done raw_content ->
  fromstring W (Str raw_content) = Some root ->
  get_tag W (Str raw_content) "xmlns:ooo" = ret None ->
  display_macro_flat W od_file = ([], Raise TypeError)
  /\ (path_exists W od_file = true ->
      open_zipfile W od_file = ZipBadZipfile ->
      forall fuel,
        main W fuel od_file
        = ([Log WARNING "> Parsing Flat OpenDocument %s" [AStr od_file]],
           Raise TypeError)).
Proof.
  intros Hread Hparse Hooo.
  assert (H : display_macro_flat W od_file = ([], Raise TypeError)).
  { unfold display_macro_flat. rewrite Hread. cbn [lift bind ret app].
    rewrite Hparse, Hooo. reflexivity. }
  split; [exact H|].
  intros He Hz fuel. unfold main. rewrite He, Hz, H. reflexivity.
Qed.


(** C8: on a well-formed stream without a resolved [office] prefix the
    inspectors report nothing, search nothing and follow no object: they
    log the entering line and, at most, the exiting line.  But they return
    false only when the look-ups of the other prefixes return, for these
    are made before the [office] prefix is tested: when one of them raises
    [IndexError] the inspector ends with this exception, and so does
    [main]. *)
Theorem inspector_without_office (od_file : string) (od_zipfile : ZipFile)
  (content_path indent raw_content : string) (root : Element) (fuel : nat)
  (office_prefix : option string) :
  truthy office_prefix = false ->
  (read_text W od_file = Done raw_content ->
   fromstring W (Str raw_content) = Some root ->
   get_tag W (Str raw_content) "xmlns:office" = ret office_prefix ->
   (get_tag W (Str raw_content) "xmlns:script" = raise IndexError ->
    display_event_listener_flat W od_file indent
    = ([entering indent od_file], Raise IndexError))
   /\ ((exists script_prefix,
          get_tag W (Str raw_content) "xmlns:script" = ret script_prefix) ->
       display_event_listener_flat W od_file indent
       = ([entering indent od_file; exiting indent od_file], Ret false))
   /\ (display_event_listener_flat W od_file indent
       = ([entering indent od_file], Raise IndexError)
       \/ display_event_listener_flat W od_file indent
          = ([entering indent od_file; exiting indent od_file], Ret false)))
  /\ (zip_read W od_zipfile (get_content_zip_path content_path)
      = ret raw_content ->
      fromstring W (Bytes raw_content) = Some root ->
      get_tag W (Bytes raw_content) "xmlns:office" = ret office_prefix ->
      let failing key := get_tag W (Bytes raw_content) key = raise IndexError in
      let name := get_content_zip_path content_path in
      let run :=
        display_event_listener_od W (S fuel) od_zipfile content_path indent in
      (failing "xmlns:script" \/ failing "xmlns:draw" \/ failing "xmlns:xlink" ->
       run = ([entering indent name], Raise IndexError))
      /\ (~ (failing "xmlns:script" \/ failing "xmlns:draw"
             \/ failing "xmlns:xlink") ->
          run = ([entering indent name; exiting indent name], Ret false))
      /\ (run = ([entering indent name], Raise IndexError)
          \/ run = ([entering indent name; exiting indent name], Ret false))
      /\ (failing "xmlns:script" \/ failing "xmlns:draw"
          \/ failing "xmlns:xlink" ->
          content_path = "" -> indent = "" ->
          path_exists W od_file = true ->
          open_zipfile W od_file = ZipOpened od_zipfile ->
          existsb qualifies (namelist od_zipfile) = true ->
          snd (main W (S fuel) od_file) = Raise IndexError
          /\ exit_status (snd (main W (S fuel) od_file)) = Some 1)).
Proof.
  intros To. split.
  - intros Hread Hparse Hoffice.
    assert (Hraise : get_tag W (Str raw_content) "xmlns:script"
                     = raise IndexError ->
                     display_event_listener_flat W od_file indent
                     = ([entering indent od_file], Raise IndexError)).
    { intros Hs. unfold display_event_listener_flat. rewrite Hread.
      cbn [lift bind ret log emit app]. rewrite Hparse, Hoffice, Hs.
      reflexivity. }
    assert (Hret : (exists script_prefix,
                      get_tag W (Str raw_content) "xmlns:script"
                      = ret script_prefix) ->
                   display_event_listener_flat W od_file indent
                   = ([entering indent od_file; exiting indent od_file],
                      Ret false)).
    { intros [s Hs]. unfold display_event_listener_flat. rewrite Hread.
      cbn [lift bind ret log emit app]. rewrite Hparse, Hoffice, Hs.
      cbn [bind ret app]. rewrite To. reflexivity. }
    split; [exact Hraise|]. split; [exact Hret|].
    destruct (get_tag_cases (Str raw_content) "xmlns:script") as [Hs|Hs].
    + right. exact (Hret Hs).
    + left. exact (Hraise Hs).
  - intros Hread Hparse Hoffice failing name run.
    assert (Hraise : failing "xmlns:script" \/ failing "xmlns:draw"
                     \/ failing "xmlns:xlink" ->
                     run = ([entering indent name], Raise IndexError)).
    { intros Hf. subst run name failing. cbn [display_event_listener_od].
      rewrite Hread. cbn [bind ret log emit app]. rewrite Hparse, Hoffice.
      cbn [bind ret app].
      destruct (get_tag_cases (Bytes raw_content) "xmlns:script")
        as [[s Hs]|Hs]; rewrite Hs; [|reflexivity].
      cbn [bind ret app].
      destruct (get_tag_cases (Bytes raw_content) "xmlns:draw")
        as [[d Hd]|Hd]; rewrite Hd; [|reflexivity].
      cbn [bind ret app].
      destruct (get_tag_cases (Bytes raw_content) "xmlns:xlink")
        as [[x Hx]|Hx]; rewrite Hx; [|reflexivity].
      exfalso. destruct Hf as [Hf|[Hf|Hf]].
      - rewrite Hs in Hf. discriminate Hf.
      - rewrite Hd in Hf. discriminate Hf.
      - rewrite Hx in Hf. discriminate Hf. }
    assert (Hret : ~ (failing "xmlns:script" \/ failing "xmlns:draw"
                      \/ failing "xmlns:xlink") ->
                   run = ([entering indent name; exiting indent name],
                          Ret false)).
    { intros Hn. subst run name failing. cbn [display_event_listener_od].
      rewrite Hread. cbn [bind ret log emit app]. rewrite Hparse, Hoffice.
      cbn [bind ret app].
      destruct (get_tag_cases (Bytes raw_content) "xmlns:script")
        as [[s Hs]|Hs]; [|exfalso; apply Hn; now left].
      destruct (get_tag_cases (Bytes raw_content) "xmlns:draw")
        as [[d Hd]|Hd]; [|exfalso; apply Hn; right; now left].
      destruct (get_tag_cases (Bytes raw_content) "xmlns:xlink")
        as [[x Hx]|Hx]; [|exfalso; apply Hn; right; now right].
      rewrite Hs, Hd, Hx. cbn [bind ret app]. rewrite To. reflexivity. }
    split; [exact Hraise|]. split; [exact Hret|]. split.
    + destruct (get_tag_cases (Bytes raw_content) "xmlns:script")
        as [[s Hs]|Hs]; [|left; apply Hraise; now left].
      destruct (get_tag_cases (Bytes raw_content) "xmlns:draw")
        as [[d Hd]|Hd]; [|left; apply Hraise; right; now left].
      destruct (get_tag_cases (Bytes raw_content) "xmlns:xlink")
        as [[x Hx]|Hx]; [|left; apply Hraise; right; now right].
      right. apply Hret. subst failing. cbn beta.
      intros [Hf|[Hf|Hf]];
        [rewrite Hs in Hf | rewrite Hd in Hf | rewrite Hx in Hf];
        discriminate Hf.
    + intros Hf Hc Hi He Hz Hq. specialize (Hraise Hf).
      subst run name content_path indent.
      assert (Hmain : snd (main W (S fuel) od_file) = Raise IndexError).
      { unfold main.
        rewrite He, Hz, (display_macro_od_qualifying _ Hq), Hraise.
        reflexivity. }
      split; [exact Hmain | now rewrite Hmain].
Qed.

(** C10: when the first OLE object the search returns has no [href]
    attribute in the xlink namespace, the attribute look-up raises
    [KeyError]; nothing handles it, so the inspector and [main] end with
    this exception instead of going on to the next object. *)
Theorem ole_object_without_href (od_file : string) (od_zipfile : ZipFile)
  (content_path indent raw_content : string) (root : Element) (fuel : nat)
  (office_prefix script_prefix : option string) (draw xlink : string)
  (ole_object : Element) (others : list Element) :
  zip_read W od_zipfile (get_content_zip_path content_path)
  = ret raw_content ->
  fromstring W (Bytes raw_content) = Some root ->
  get_tag W (Bytes raw_content) "xmlns:office" = ret office_prefix ->
  get_tag W (Bytes raw_content) "xmlns:script" = ret script_prefix ->
  get_tag W (Bytes raw_content) "xmlns:draw" = ret (Some draw) ->
  get_tag W (Bytes raw_content) "xmlns:xlink" = ret (Some xlink) ->
  truthy office_prefix = true ->
  plain_or_absent script_prefix = true ->
  draw <> "" -> xlink <> "" ->
  find_rec W root ("{" ++ draw ++ "}object") [] = Done (ole_object :: others) ->
  dict_get (attrib ole_object) ("{" ++ xlink ++ "}href") = None ->
  snd (display_event_listener_od W (S fuel) od_zipfile content_path indent)
  = Raise (KeyError ("{" ++ xlink ++ "}href"))
  /\ (content_path = "" -> indent = "" ->
      path_exists W od_file = true ->
      open_zipfile W od_file = ZipOpened od_zipfile ->
      existsb qualifies (namelist od_zipfile) = true ->
      snd (main W (S fuel) od_file) = Raise (KeyError ("{" ++ xlink ++ "}href"))
      /\ exit_status (snd (main W (S fuel) od_file)) = Some 1).
Proof.
  intros Hread Hparse Hoffice Hscript Hdraw Hxlink Ho Ps Hd Hx Hfind Hattr.
  assert (H : snd (display_event_listener_od W (S fuel) od_zipfile
                     content_path indent)
              = Raise (KeyError ("{" ++ xlink ++ "}href"))).
  { cbn [display_event_listener_od].
    rewrite Hread. cbn [bind ret log emit app].
    rewrite Hparse, Hoffice, Hscript, Hdraw, Hxlink. cbn [bind ret app].
    rewrite Ho. cbn [negb].
    destruct (listeners_step root script_prefix (indent ++ "  ") Ps)
      as [tr ->].
    cbn [bind].
    rewrite (truthy_nonempty _ Hd), (truthy_nonempty _ Hx). cbn [andb].
    unfold get_ole_objects, find_rec_call.
    cbn [qualified bind ret emit app].
    change ("{" ++ draw ++ "}" ++ "object") with ("{" ++ draw ++ "}object").
    change ("{" ++ xlink ++ "}" ++ "href") with ("{" ++ xlink ++ "}href").
    rewrite Hfind. cbn [lift for_each bind ret app]. rewrite Hattr.
    reflexivity. }
  split; [exact H|].
  intros -> -> He Hz Hq.
  assert (Hmain : snd (main W (S fuel) od_file)
                  = Raise (KeyError ("{" ++ xlink ++ "}href"))).
  { unfold main. rewrite He, Hz, (display_macro_od_qualifying _ Hq).
    revert H.
    destruct (display_event_listener_od W (S fuel) od_zipfile "" "")
      as [tr r]. cbn [snd]. intros ->. reflexivity. }
  split; [exact Hmain|]. rewrite Hmain. reflexivity.
Qed.

End Inspection.

Lemma display_macro_flat_without_ooo_witness :
  display_macro_flat Sample.world "plain.fodt" = ([], Raise TypeError)
  /\ main Sample.world 1 "plain.fodt"
     = ([Log WARNING "> Parsing Flat OpenDocument %s" [AStr "plain.fodt"]],
        Raise TypeError).
Proof.
  destruct (display_macro_flat_without_ooo Sample.world "plain.fodt"
              Sample.plain_xml Sample.plain_tree eq_refl eq_refl eq_refl)
    as [H1 H2].
  split; [exact H1 | exact (H2 eq_refl eq_refl 1)].
Defined.



Lemma inspector_without_office_witness :
  display_event_listener_flat Sample.world "unquoted.fodt" ""
  = ([entering "" "unquoted.fodt"], Raise IndexError)
  /\ display_event_listener_flat Sample.world "plain.fodt" ""
     = ([entering "" "plain.fodt"; exiting "" "plain.fodt"], Ret false)
  /\ display_event_listener_od Sample.world 1 Sample.unquoted_archive "" ""
     = ([entering "" "content.xml"], Raise IndexError)
  /\ display_event_listener_od Sample.world 1 Sample.undeclared_archive "" ""
     = ([entering "" "content.xml"; exiting "" "content.xml"], Ret false)
  /\ snd (main Sample.world 1 "unquoted.odt") = Raise IndexError
  /\ exit_status (snd (main Sample.world 1 "unquoted.odt")) = Some 1.
Proof.
  destruct (inspector_without_office Sample.world "unquoted.fodt"
              Sample.unquoted_archive "" "" Sample.unquoted_xml
              Sample.plain_tree 0 None eq_refl) as [F1 Z1].
  destruct (inspector_without_office Sample.world "plain.fodt"
              Sample.undeclared_archive "" "" Sample.plain_xml
              Sample.plain_tree 0 None eq_refl) as [F2 Z2].
  destruct (inspector_without_office Sample.world "unquoted.odt"
              Sample.unquoted_archive "" "" Sample.unquoted_xml
              Sample.plain_tree 0 None eq_refl) as [_ Z3].
  destruct (F1 eq_refl eq_refl eq_refl) as (F1r & _).
  destruct (F2 eq_refl eq_refl eq_refl) as (_ & F2r & _).
  destruct (Z1 eq_refl eq_refl eq_refl) as (Z1r & _).
  destruct (Z2 eq_refl eq_refl eq_refl) as (_ & Z2r & _).
  destruct (Z3 eq_refl eq_refl eq_refl) as (_ & _ & _ & Z3m).
  split; [exact (F1r eq_refl)|].
  split; [apply F2r; now exists None|].
  split; [apply Z1r; left; reflexivity|].
  split.
  - apply Z2r. intros [H|[H|H]]; discriminate H.
  - apply Z3m; try reflexivity. left. reflexivity.
Defined.

Lemma ole_object_without_href_witness :
  snd (display_event_listener_od Sample.world 1 Sample.no_href_archive "" "")
  = Raise (KeyError "{urn:xlink}href")
  /\ exit_status (snd (main Sample.world 1 "no_href.odt")) = Some 1.
Proof.
  destruct (ole_object_without_href Sample.world "no_href.odt"
              Sample.no_href_archive "" "" (Sample.object_xml "")
              (Sample.object_tree []) 0 (Some "urn:office")
              (Some "urn:script") "urn:draw" "urn:xlink"
              (Elem "{urn:draw}object" [] []) [])
    as [H1 H2]; try reflexivity; try discriminate.
  split; [exact H1|].
  destruct (H2 eq_refl eq_refl eq_refl eq_refl eq_refl) as [_ H3]. exact H3.
Defined.
(** ** Depth of the OLE-object recursion *)

Section Recursion.

Variable W : World.

Lemma append_length (s1 s2 : string) :
  String.length (s1 ++ s2) = String.length s1 + String.length s2.
Proof. induction s1 as [|c s1 IH]; cbn; [reflexivity | now rewrite IH]. Qed.

(** A resolved member name is more than a third as long as the reference
    it comes from. *)
Lemma get_content_zip_path_length (content_path : string) :
  String.length content_path
  < 3 * String.length (get_content_zip_path content_path).
Proof.
  unfold get_content_zip_path. fold (PyStr.collapse content_path).
  pose proof (collapse_length content_path) as L.
  destruct (PyStr.collapse content_path) as [|c r].
  - cbn in *. lia.
  - destruct (PyStr.startswith (String c r) "/").
    + cbn [PyStr.tail]. destruct r as [|d r]; cbn [String.eqb].
      * cbn in *. lia.
      * rewrite append_length. cbn [String.length] in *. lia.
    + cbn [String.eqb]. rewrite append_length. cbn [String.length] in *. lia.
Qed.

Lemma max_name_length_In (z : ZipFile) (name : string) :
  In name (namelist z) -> String.length name <= max_name_length z.
Proof.
  unfold max_name_length. induction (namelist z) as [|n names IH]; cbn.
  - contradiction.
  - intros [-> | H]; [lia | specialize (IH H); lia].
Qed.

Lemma zip_read_In (z : ZipFile) (name : string) (trace : list event)
  (raw : string) :
  zip_read W z name = (trace, Ret raw) -> In name (namelist z).
Proof.
  unfold zip_read.
  destruct (find _ (rev z)) as [m|] eqn:F; [intros _ | discriminate].
  apply find_some in F as [Hin Heq]. apply String.eqb_eq in Heq. subst name.
  apply in_map, in_rev. exact Hin.
Qed.

Lemma zip_read_finished (z : ZipFile) (name : string) :
  snd (zip_read W z name) <> OutOfFuel.
Proof.
  unfold zip_read. destruct (find _ _); [|discriminate].
  destruct (member_fault W name); discriminate.
Qed.

Lemma get_tag_finished (content : pytext) (tag : string) :
  snd (get_tag W content tag) <> OutOfFuel.
Proof.
  unfold get_tag. generalize (PyStr.split
    match content with Bytes b => decode_ignore W b | Str s => s end " ").
  intros tokens. induction tokens as [|t tokens IH]; cbn; [discriminate|].
  destruct (PyStr.startswith t _); [|exact IH].
  destruct (PyStr.item_neg2 _); discriminate.
Qed.

Lemma finished_bind {A B : Type} (m : M A) (k : A -> M B) :
  snd m <> OutOfFuel ->
  (forall trace a, m = (trace, Ret a) -> snd (k a) <> OutOfFuel) ->
  snd (bind m k) <> OutOfFuel.
Proof.
  destruct m as [tr [a| e |]]; cbn; intros Hm Hk.
  - specialize (Hk tr a eq_refl). destruct (k a). exact Hk.
  - discriminate.
  - contradiction.
Qed.

Lemma finished_for_each {A : Type} (l : list A) (body : A -> M unit) :
  (forall x, In x l -> snd (body x) <> OutOfFuel) ->
  snd (for_each l body) <> OutOfFuel.
Proof.
  induction l as [|x l IH]; intros H; cbn [for_each]; [discriminate|].
  apply finished_bind; [apply H; now left|].
  intros _ _ _. apply IH. intros y Hy. apply H. now right.
Qed.

Lemma qualified_finished (prefix : option string) (local : string) :
  snd (qualified prefix local) <> OutOfFuel.
Proof. destruct prefix; discriminate. Qed.

(** A library call comes back, with a value or an exception. *)
Lemma lift_finished {A : Type} (o : outcome A) : snd (lift o) <> OutOfFuel.
Proof. destruct o; discriminate. Qed.

Lemma find_rec_call_finished (node : Element) (element : string)
  (result : list Element) :
  snd (find_rec_call W node element result) <> OutOfFuel.
Proof.
  unfold find_rec_call. apply finished_bind; [discriminate|].
  intros _ _ _. apply lift_finished.
Qed.

Lemma get_ole_objects_finished (content : Element)
  (draw_prefix : option string) :
  snd (get_ole_objects W content draw_prefix) <> OutOfFuel.
Proof.
  unfold get_ole_objects. apply finished_bind; [apply qualified_finished|].
  intros _ element _. apply find_rec_call_finished.
Qed.

Lemma get_event_listeners_finished (content : Element)
  (script_prefix : option string) (indent : string) :
  snd (get_event_listeners W content script_prefix indent) <> OutOfFuel.
Proof.
  unfold get_event_listeners.
  apply finished_bind; [apply qualified_finished|]. intros _ element _.
  apply finished_bind; [apply find_rec_call_finished|]. intros _ result _.
  apply finished_for_each. intros script _. discriminate.
Qed.

(** One level of the inspector comes back when its nested calls do, and it
    makes nested calls only after it found its own stream in the archive,
    that is, for a reference shorter than three times the longest member
    name. *)
Lemma display_event_listener_od_step (fuel : nat) (od_zipfile : ZipFile)
  (content_path indent : string) :
  (String.length content_path < 3 * max_name_length od_zipfile ->
   forall draw_href indent',
     snd (display_event_listener_od W fuel od_zipfile
            (content_path ++ "/" ++ draw_href) indent') <> OutOfFuel) ->
  snd (display_event_listener_od W (S fuel) od_zipfile content_path indent)
  <> OutOfFuel.
Proof.
  intros Hrec. cbn [display_event_listener_od].
  apply finished_bind; [discriminate|]. intros _ _ _.
  apply finished_bind; [apply zip_read_finished|]. intros tr raw Hread.
  assert (Hlen : String.length content_path < 3 * max_name_length od_zipfile).
  { pose proof (get_content_zip_path_length content_path).
    pose proof (max_name_length_In _ _ (zip_read_In _ _ _ _ Hread)). lia. }
  specialize (Hrec Hlen).
  destruct (fromstring W (Bytes raw)) as [root|]; [|discriminate].
  apply finished_bind; [apply get_tag_finished|]. intros _ office_prefix _.
  apply finished_bind; [apply get_tag_finished|]. intros _ script_prefix _.
  apply finished_bind; [apply get_tag_finished|]. intros _ draw_prefix _.
  apply finished_bind; [apply get_tag_finished|]. intros _ xlink_prefix _.
  destruct (negb (truthy office_prefix)); [discriminate|].
  apply finished_bind.
  { destruct (truthy script_prefix);
      [apply get_event_listeners_finished | discriminate]. }
  intros _ _ _. apply finished_bind; [|intros; discriminate].
  destruct (truthy draw_prefix && truthy xlink_prefix); [|discriminate].
  apply finished_bind; [apply get_ole_objects_finished|].
  intros _ ole_objects _. apply finished_for_each. intros ole_object _.
  apply finished_bind; [apply qualified_finished|]. intros _ key _.
  apply finished_bind; [destruct (dict_get _ _); discriminate|].
  intros _ draw_href _.
  apply finished_bind; [apply Hrec | intros; discriminate].
Qed.

Lemma display_event_listener_od_finished (od_zipfile : ZipFile) :
  forall fuel content_path indent,
    3 * max_name_length od_zipfile <= fuel + String.length content_path ->
    snd (display_event_listener_od W (S fuel) od_zipfile content_path indent)
    <> OutOfFuel.
Proof.
  induction fuel as [|fuel IH]; intros content_path indent Hb;
    apply display_event_listener_od_step; intros Hlen draw_href indent'.
  - lia.
  - apply IH. rewrite !append_length. cbn [String.length]. lia.
Qed.

(** More fuel does not change a run that came back. *)
Lemma bind_stable {A B : Type} (m1 m2 : M A) (k1 k2 : A -> M B) :
  snd (bind m2 k2) <> OutOfFuel ->
  (snd m2 <> OutOfFuel -> m1 = m2) ->
  (forall trace a, m2 = (trace, Ret a) -> snd (k2 a) <> OutOfFuel ->
                   k1 a = k2 a) ->
  bind m1 k1 = bind m2 k2.
Proof.
  intros H Hm Hk.
  assert (Hf : snd m2 <> OutOfFuel).
  { destruct m2 as [tr [a| e |]]; cbn in H |- *; try discriminate.
    contradiction. }
  rewrite (Hm Hf). destruct m2 as [tr [a| e |]]; cbn in H |- *; try reflexivity.
  rewrite (Hk tr a eq_refl); [reflexivity|].
  destruct (k2 a). exact H.
Qed.

Lemma for_each_stable {A : Type} (l : list A) (f g : A -> M unit) :
  snd (for_each l g) <> OutOfFuel ->
  (forall x, snd (g x) <> OutOfFuel -> f x = g x) ->
  for_each l f = for_each l g.
Proof.
  intros H Hfg. induction l as [|x l IH]; [reflexivity|].
  cbn [for_each] in H |- *. apply bind_stable; [exact H | apply Hfg |].
  intros _ _ _ Hl. apply IH. exact Hl.
Qed.

Lemma display_event_listener_od_stable (od_zipfile : ZipFile) :
  forall n content_path indent,
    snd (display_event_listener_od W n od_zipfile content_path indent)
    <> OutOfFuel ->
    forall m, n <= m ->
      display_event_listener_od W m od_zipfile content_path indent
      = display_event_listener_od W n od_zipfile content_path indent.
Proof.
  induction n as [|n IH]; intros content_path indent H m Hnm.
  - cbn in H. contradiction.
  - destruct m as [|m]; [lia|].
    cbn [display_event_listener_od] in H |- *.
    apply bind_stable; [exact H | reflexivity |]. clear H. intros _ _ _ H.
    apply bind_stable; [exact H | reflexivity |]. clear H. intros _ raw _ H.
    destruct (fromstring W (Bytes raw)) as [root|]; [|reflexivity].
    do 4 (apply bind_stable; [exact H | reflexivity |]; clear H;
          intros _ ? _ H).
    destruct (negb (truthy _)); [reflexivity|].
    apply bind_stable; [exact H | reflexivity |]. clear H. intros _ _ _ H.
    apply bind_stable; [exact H | | reflexivity]. clear H. intros H.
    destruct (truthy _ && truthy _); [|reflexivity].
    apply bind_stable; [exact H | reflexivity |]. clear H.
    intros _ ole_objects _ H.
    apply for_each_stable; [exact H|]. clear H. intros ole_object H.
    apply bind_stable; [exact H | reflexivity |]. clear H. intros _ key _ H.
    apply bind_stable; [exact H | reflexivity |]. clear H.
    intros _ draw_href _ H.
    apply bind_stable; [exact H | | reflexivity]. clear H. intros H.
    apply IH; [exact H | lia].
Qed.

(** C9 (as amended): on every archive the zip-variant inspector comes back,
    with a result or an exception.  Every nested call lengthens the
    directory reference, a member name is more than a third as long as the
    reference it is resolved from, and a name the archive does not hold
    ends the run with [KeyError]; so a depth of three times the longest
    member name is never exceeded, and fuel beyond that bound does not
    change the outcome.  There is no visited-set guard: a stream that is
    referred to again is inspected again under the longer reference. *)
Theorem display_event_listener_od_terminates (od_zipfile : ZipFile)
  (content_path indent : string) (fuel : nat) :
  3 * max_name_length od_zipfile <= fuel + String.length content_path ->
  snd (display_event_listener_od W (S fuel) od_zipfile content_path indent)
  <> OutOfFuel
  /\ forall fuel', S fuel <= fuel' ->
       display_event_listener_od W fuel' od_zipfile content_path indent
       = display_event_listener_od W (S fuel) od_zipfile content_path indent.
Proof.
  intros Hb.
  pose proof (display_event_listener_od_finished od_zipfile fuel content_path
                indent Hb) as H.
  split; [exact H|]. intros fuel' Hle.
  now apply display_event_listener_od_stable.
Qed.

End Recursion.

Lemma display_event_listener_od_terminates_witness :
  display_event_listener_od Sample.world 100 Sample.cyclic_archive "" ""
  = display_event_listener_od Sample.world 79 Sample.cyclic_archive "" "".
Proof.
  apply (display_event_listener_od_terminates Sample.world
           Sample.cyclic_archive "" "" 78).
  - vm_compute. lia.
  - lia.
Defined.

(** C9 (as stated) fails: no archive keeps the inspector from coming back.
    On the sample archive whose two streams refer to each other, the root
    stream is entered a second time under the reference [/./], and the run
    ends at the fourth level with the [KeyError] of a member that does not
    exist. *)
Lemma spec_unbounded_recursion_counterexample :
  (exists trace,
     display_event_listener_od Sample.world 4 Sample.cyclic_archive "" ""
     = (trace,
        Raise (KeyError
                 "There is no item named '/./content.xml' in the archive"))
     /\ filter (fun ev => match ev with
                         | Log WARNING _ _ => true
                         | _ => false
                         end) trace
        = [entering "" "content.xml"; entering "  " "./content.xml";
           entering "    " "content.xml"; entering "      " "/./content.xml"])
  /\ ~ spec_unbounded_recursion.
Proof.
  split.
  - eexists. split; reflexivity.
  - intros (W & z & content_path & indent & H).
    apply (display_event_listener_od_finished W z (3 * max_name_length z)
             content_path indent); [lia | apply H].
Qed.

(** ** Runs on the sample inputs *)

Section Runs.

(** An object reference [./Object 1] is followed into
    [Object 1/content.xml], and the listener found there is reported one
    indentation level below the root stream. *)
Example nested_listener_is_reported :
  main Sample.world 2 "nested.odt"
  = ([Log WARNING "> Parsing OpenDocument %s" [AStr "nested.odt"];
      banner_od;
      report_od "Scripts/python/Module1.py";
      entering "" "content.xml";
      Searched "{urn:script}event-listener";
      Searched "{urn:draw}object";
      entering "  " "Object 1/content.xml";
      Searched "{urn:script}event-listener";
      Log CRITICAL "%s> Found event listener: %s"
        [AStr "    "; AAttrib Sample.listener_attrib];
      Searched "{urn:draw}object";
      exiting "  " "Object 1/content.xml";
      exiting "" "content.xml";
      Log WARNING "> Closing OpenDocument %s" [AStr "nested.odt"]],
     Ret tt).
Proof. reflexivity. Qed.

(** An archive without macro indicators is not inspected any further. *)
Example macro_free_is_not_inspected :
  open_zipfile Sample.world "clean.odt" = ZipOpened Sample.macro_free
  /\ main Sample.world 2 "clean.odt"
     = ([Log WARNING "> Parsing OpenDocument %s" [AStr "clean.odt"];
         Log WARNING "> Closing OpenDocument %s" [AStr "clean.odt"]],
        Ret tt).
Proof. split; reflexivity. Qed.

(** The markers are looked for as substrings of the member name: a
    directory whose name merely ends in [Basic] qualifies as well, and a
    name with both markers is reported twice. *)
Example markers_are_substrings :
  display_macro_od [("NotBasic/readme.txt", "")]
  = ([banner_od; report_od "NotBasic/readme.txt"], Ret true)
  /\ display_macro_od [("Basic/Scripts/x", "")]
     = ([banner_od; report_od "Basic/Scripts/x"; report_od "Basic/Scripts/x"],
        Ret true).
Proof. split; reflexivity. Qed.

(** A missing input ends the run with [sys.exit(1)]. *)
Example missing_input_exits_1 :
  main Sample.world 2 "missing.odt"
  = ([Log CRITICAL "%s is not a file..." [AStr "missing.odt"]],
     Raise (SystemExit 1))
  /\ exit_status (snd (main Sample.world 2 "missing.odt")) = Some 1.
Proof. split; reflexivity. Qed.

End Runs.

(** * Further properties of the scanner *)

(** ** Namespace Resolver: tokens that are not of the form [key="value"] *)

Section NamespaceResolverEdges.

Import PyStr.

Variable W : World.

(** X1: when the first token that begins with [key=] holds no double quote,
    the resolver raises [IndexError]; the tokens after it are not looked
    at. *)
Theorem get_tag_unquoted_token (text tag : string)
  (before after : list string) (token : string) :
  split text " " = (before ++ token :: after)%list ->
  Forall (fun t => startswith t (tag ++ "=") = false) before ->
  startswith token (tag ++ "=") = true ->
  contains token dq = false ->
  get_tag W (Str text) tag = raise IndexError.
Proof.
  intros Hs Hb Ht Hq. unfold get_tag. rewrite Hs.
  rewrite (get_tag_scan_skip _ _ _ Hb). cbn [get_tag_scan].
  now rewrite Ht, (split_none _ _ Hq).
Qed.

(** X2: when the first token that begins with [key=] holds exactly one
    double quote (the value was cut at a space), the resolver returns the
    text in front of that quote, not the value. *)
Theorem get_tag_cut_value (text tag : string)
  (before after : list string) (pre post : string) :
  split text " " = (before ++ (pre ++ dq ++ post)%string :: after)%list ->
  Forall (fun t => startswith t (tag ++ "=") = false) before ->
  startswith (pre ++ dq ++ post) (tag ++ "=") = true ->
  contains pre dq = false ->
  contains post dq = false ->
  get_tag W (Str text) tag = ret (Some pre).
Proof.
  intros Hs Hb Ht Hpre Hpost. unfold get_tag. rewrite Hs.
  rewrite (get_tag_scan_skip _ _ _ Hb). cbn [get_tag_scan]. rewrite Ht.
  unfold dq. change (String dquote "" ++ post) with (String dquote post).
  now rewrite split_app, (split_none _ _ Hpre), (split_none _ _ Hpost).
Qed.

End NamespaceResolverEdges.

Lemma get_tag_unquoted_token_witness :
  get_tag Cases.world (Str Sample.unquoted_xml) "xmlns:script"
  = raise IndexError.
Proof.
  apply (get_tag_unquoted_token Cases.world Sample.unquoted_xml
           "xmlns:script" ["<doc>see"] ["</doc>"] "xmlns:script=1").
  - reflexivity.
  - repeat constructor.
  - reflexivity.
  - reflexivity.
Defined.

Lemma get_tag_cut_value_witness :
  get_tag Cases.world (Str Cases.spaced_text) "xmlns:ooo"
  = ret (Some "xmlns:ooo=").
Proof.
  apply (get_tag_cut_value Cases.world Cases.spaced_text "xmlns:ooo"
           ["<office:document"] ["ooo" ++ PyStr.dq; "/>"] "xmlns:ooo=" "urn").
  - reflexivity.
  - repeat constructor.
  - reflexivity.
  - reflexivity.
  - reflexivity.
Defined.

(** ** Archive Path Resolver: shape and size of the resolved name *)

Section PathResolverShape.

Import PyStr.

Lemma append_assoc (s1 s2 s3 : string) :
  (s1 ++ s2) ++ s3 = s1 ++ s2 ++ s3.
Proof. induction s1 as [|c s1 IH]; cbn; [reflexivity | now rewrite IH]. Qed.

Lemma append_nil_r (s : string) : s ++ "" = s.
Proof. induction s as [|c s IH]; cbn; [reflexivity | now rewrite IH]. Qed.

Lemma endswith_refl (s : string) : endswith s s = true.
Proof. destruct s; cbn; [reflexivity | now rewrite Ascii.eqb_refl, String.eqb_refl]. Qed.

Lemma endswith_app (s suffix : string) : endswith (s ++ suffix) suffix = true.
Proof.
  induction s as [|c s IH]; [apply endswith_refl|].
  change (String c s ++ suffix) with (String c (s ++ suffix)).
  rewrite endswith_cons, IH. apply orb_true_r.
Qed.

(** X3: whatever the reference, the resolved member name ends in
    [content.xml]: it is [content.xml] itself or a non-empty directory part
    followed by [/content.xml]. *)
Theorem get_content_zip_path_names_content (content_path : string) :
  endswith (get_content_zip_path content_path) "content.xml" = true
  /\ (get_content_zip_path content_path = "content.xml"
      \/ exists directory,
           directory <> ""
           /\ get_content_zip_path content_path = directory ++ "/content.xml").
Proof.
  unfold get_content_zip_path.
  set (r := if startswith (replace content_path "/./" "/") "/"
            then tail (replace content_path "/./" "/")
            else replace content_path "/./" "/").
  destruct r as [|c r]; [split; [reflexivity | now left]|].
  cbn [String.eqb]. split.
  - change "/content.xml" with ("/" ++ "content.xml").
    rewrite <- append_assoc. apply endswith_app.
  - right. exists (String c r). split; [discriminate | reflexivity].
Qed.

(** X4: the resolved name is more than a third as long as the reference and
    at most twelve characters longer. *)
Theorem get_content_zip_path_length_bounds (content_path : string) :
  String.length content_path
  < 3 * String.length (get_content_zip_path content_path)
  /\ String.length (get_content_zip_path content_path)
     <= String.length content_path + 12.
Proof.
  split; [apply get_content_zip_path_length|].
  unfold get_content_zip_path. fold (collapse content_path).
  assert (L : String.length (collapse content_path)
              <= String.length content_path).
  { induction content_path as [|r IH|c r E IH] using collapse_ind.
    - cbn. lia.
    - rewrite collapse_match.
      change (S (String.length (collapse r)) <= S (S (S (String.length r)))).
      lia.
    - rewrite (collapse_other _ _ E).
      change (S (String.length (collapse r)) <= S (String.length r)). lia. }
  destruct (collapse content_path) as [|c r].
  - cbn. lia.
  - destruct (startswith (String c r) "/").
    + cbn [tail]. destruct r as [|d r]; cbn [String.eqb].
      * cbn in *. lia.
      * rewrite append_length. cbn [String.length] in *. lia.
    + cbn [String.eqb]. rewrite append_length. cbn [String.length] in *. lia.
Qed.

(** A piece without a slash is copied by the scan. *)
Lemma collapse_plain (name rest : string) :
  contains name "/" = false ->
  collapse (name ++ rest) = name ++ collapse rest.
Proof.
  induction name as [|c name IH]; intros H; [reflexivity|].
  change (String c name ++ rest) with (String c (name ++ rest)).
  pose proof (contains_head _ _ H) as H0. cbn [startswith] in H0.
  rewrite andb_true_r in H0.
  rewrite collapse_other.
  - cbn [append]. f_equal. apply IH. exact (contains_tail _ _ _ H).
  - cbn [startswith]. now rewrite H0.
Qed.

Lemma followed_from (draw_hrefs : list string) :
  forall content_path,
    fold_left (fun cp draw_href => cp ++ "/" ++ draw_href) draw_hrefs
      content_path
    = content_path
      ++ fold_right (fun draw_href rest => "/" ++ draw_href ++ rest) ""
           draw_hrefs.
Proof.
  induction draw_hrefs as [|h hs IH]; intros content_path; cbn [fold_left fold_right].
  - now rewrite append_nil_r.
  - rewrite IH, !append_assoc. reflexivity.
Qed.

Lemma collapse_segments (names : list string) :
  Forall (fun name => contains name "/" = false) names ->
  collapse (fold_right (fun draw_href rest => "/" ++ draw_href ++ rest) ""
              (map (fun name => "./" ++ name) names))
  = fold_right (fun name rest => "/" ++ name ++ rest) "" names.
Proof.
  induction 1 as [|name names Hname _ IH]; [reflexivity|].
  cbn [map fold_right].
  set (F := fold_right _ "" (map _ names)) in *.
  change ("/" ++ ("./" ++ name) ++ F) with ("/./" ++ name ++ F).
  rewrite collapse_match, (collapse_plain _ _ Hname), IH. reflexivity.
Qed.

Lemma collapse_followed (names : list string) :
  Forall (fun name => contains name "/" = false) names ->
  collapse (followed (map (fun name => "./" ++ name) names))
  = fold_right (fun name rest => "/" ++ name ++ rest) "" names.
Proof.
  intros H. unfold followed. rewrite followed_from.
  exact (collapse_segments names H).
Qed.

Lemma concat_slash (name : string) (names : list string) :
  name ++ fold_right (fun n rest => "/" ++ n ++ rest) "" names
  = String.concat "/" (name :: names).
Proof.
  revert name. induction names as [|n names IH]; intros name.
  - cbn. apply append_nil_r.
  - cbn [fold_right]. rewrite IH. reflexivity.
Qed.

(** X5: relative references compose.  After following the references
    [./n1], ..., [./nk] from the archive root, with every name non-empty
    and free of slashes, the inspector reads the member
    [n1/.../nk/content.xml]. *)
Theorem get_content_zip_path_followed (names : list string) :
  names <> [] ->
  Forall (fun name => name <> "" /\ contains name "/" = false) names ->
  get_content_zip_path (followed (map (fun name => "./" ++ name) names))
  = String.concat "/" names ++ "/content.xml".
Proof.
  intros Hne H. unfold get_content_zip_path.
  fold (collapse (followed (map (fun name => "./" ++ name) names))).
  rewrite collapse_followed
    by (eapply Forall_impl; [|exact H]; cbn; tauto).
  destruct names as [|name names]; [contradiction|].
  cbn [fold_right].
  set (G := fold_right _ "" names).
  change ("/" ++ name ++ G) with (String "/" (name ++ G)).
  change (startswith (String "/" (name ++ G)) "/") with true.
  cbv iota. cbn [tail]. unfold G. rewrite concat_slash.
  inversion H as [|? ? [Hn _] _]; subst.
  destruct (String.concat "/" (name :: names)) eqn:E; [|reflexivity].
  exfalso. rewrite <- concat_slash in E.
  destruct name; [contradiction | discriminate].
Qed.

End PathResolverShape.

Lemma get_content_zip_path_followed_witness :
  get_content_zip_path (followed ["./Object 1"; "./Object 2"])
  = "Object 1/Object 2/content.xml".
Proof.
  apply (get_content_zip_path_followed ["Object 1"; "Object 2"]).
  - discriminate.
  - repeat constructor; discriminate.
Defined.

(** ** Event-Listener Inspector, zip variant: one level *)

Section InspectorLevel.

Variable W : World.

Lemma zip_read_missing (z : ZipFile) (name : string) :
  ~ In name (namelist z) -> zip_read W z name = raise (KeyError (no_item W name)).
Proof.
  intros H. unfold zip_read.
  destruct (find _ (rev z)) as [m|] eqn:F; [|reflexivity].
  exfalso. apply H. apply find_some in F as [Hin Heq].
  apply String.eqb_eq in Heq. subst name. apply in_map, in_rev. exact Hin.
Qed.

(** X6: when the archive holds no member of the resolved name, the
    inspector logs its entering line and raises the [KeyError] of the
    archive reader, whose message quotes that name; [main] on an archive
    with macro indicators but without [content.xml] ends with this
    exception, exit status 1. *)
Theorem display_event_listener_od_missing_member (fuel : nat)
  (od_zipfile : ZipFile) (content_path indent od_file : string) :
  ~ In (get_content_zip_path content_path) (namelist od_zipfile) ->
  display_event_listener_od W (S fuel) od_zipfile content_path indent
  = ([entering indent (get_content_zip_path content_path)],
     Raise (KeyError ("There is no item named "
                      ++ repr W (get_content_zip_path content_path)
                      ++ " in the archive")))
  /\ (content_path = "" ->
      path_exists W od_file = true ->
      open_zipfile W od_file = ZipOpened od_zipfile ->
      existsb qualifies (namelist od_zipfile) = true ->
      snd (main W (S fuel) od_file)
      = Raise (KeyError
                 "There is no item named 'content.xml' in the archive")
      /\ exit_status (snd (main W (S fuel) od_file)) = Some 1).
Proof.
  intros Hmiss.
  assert (H : forall indent',
             display_event_listener_od W (S fuel) od_zipfile content_path indent'
             = ([entering indent' (get_content_zip_path content_path)],
                Raise (KeyError (no_item W (get_content_zip_path content_path))))).
  { intros indent'. cbn [display_event_listener_od].
    rewrite (zip_read_missing _ _ Hmiss). reflexivity. }
  split; [apply H|]. intros -> He Hz Hq.
  assert (Hmain : snd (main W (S fuel) od_file)
                  = Raise (KeyError
                             "There is no item named 'content.xml' in the archive")).
  { unfold main.
    rewrite He, Hz, (display_macro_od_qualifying _ Hq), (H "").
    reflexivity. }
  split; [exact Hmain | now rewrite Hmain].
Qed.




(** X9: an exception in a nested inspection is not handled at any level.
    On a stream whose [script] prefix is absent or plain, when the nested
    call for the first OLE object raises, the inspector raises the same
    exception, without going on to the other objects. *)
Theorem display_event_listener_od_propagates (fuel : nat)
  (od_zipfile : ZipFile) (content_path indent : string) (root : Element)
  (office_prefix script_prefix : option string) (draw xlink : string)
  (ole_object : Element) (others : list Element)
  (draw_href : string) (trace : list event) (e : exn) :
  resolved_stream W od_zipfile content_path root
    office_prefix script_prefix (Some draw) (Some xlink) ->
  truthy office_prefix = true ->
  plain_or_absent script_prefix = true ->
  draw <> "" -> xlink <> "" ->
  find_rec W root ("{" ++ draw ++ "}object") [] = Done (ole_object :: others) ->
  dict_get (attrib ole_object) ("{" ++ xlink ++ "}href") = Some draw_href ->
  display_event_listener_od W fuel od_zipfile
    (content_path ++ "/" ++ draw_href) (indent ++ "  ") = (trace, Raise e) ->
  display_event_listener_od W (S fuel) od_zipfile content_path indent
  = ((entering indent (get_content_zip_path content_path)
        :: listener_trace W root script_prefix indent
        ++ Searched ("{" ++ draw ++ "}object") :: trace)%list,
     Raise e).
Proof.
  intros (raw & Hread & Hparse & Ho & Hs & Hd & Hx) To Ps Nd Nx Hfind Hattr
    Hcall.
  cbn [display_event_listener_od].
  rewrite Hread. cbn [bind ret log emit app].
  rewrite Hparse, Ho, Hs, Hd, Hx. cbn [bind ret app].
  rewrite To. cbn [negb].
  rewrite (listeners_step_trace W root script_prefix indent Ps).
  cbn [bind].
  rewrite (truthy_nonempty _ Nd), (truthy_nonempty _ Nx). cbn [andb].
  unfold get_ole_objects, find_rec_call.
  cbn [qualified bind ret emit app].
  change ("{" ++ draw ++ "}" ++ "object") with ("{" ++ draw ++ "}object").
  change ("{" ++ xlink ++ "}" ++ "href") with ("{" ++ xlink ++ "}href").
  rewrite Hfind. cbn [lift for_each bind ret app]. rewrite Hattr.
  cbn [bind ret app]. rewrite Hcall. reflexivity.
Qed.

End InspectorLevel.

Lemma display_event_listener_od_missing_member_witness :
  display_event_listener_od Cases.world 1 Cases.headless_archive "" ""
  = ([entering "" "content.xml"],
     Raise (KeyError "There is no item named 'content.xml' in the archive"))
  /\ snd (main Cases.world 1 "headless.odt")
     = Raise (KeyError "There is no item named 'content.xml' in the archive")
  /\ exit_status (snd (main Cases.world 1 "headless.odt")) = Some 1.
Proof.
  destruct (display_event_listener_od_missing_member Cases.world 0
              Cases.headless_archive "" "" "headless.odt") as [H1 H2].
  - cbn. intros [H|[]]. discriminate H.
  - split; [exact H1|]. apply H2; reflexivity.
Defined.



Lemma display_event_listener_od_propagates_witness :
  display_event_listener_od Cases.world 2 Cases.dangling_archive "" ""
  = ([entering "" "content.xml";
      Searched "{urn:script}event-listener";
      Searched "{urn:draw}object";
      entering "  " "Object 1/content.xml"],
     Raise (KeyError
              "There is no item named 'Object 1/content.xml' in the archive")).
Proof.
  apply (display_event_listener_od_propagates Cases.world 1
           Cases.dangling_archive "" ""
           (Sample.object_tree [("{urn:xlink}href", "./Object 1")])
           (Some "urn:office") (Some "urn:script") "urn:draw" "urn:xlink"
           (Elem "{urn:draw}object" [("{urn:xlink}href", "./Object 1")] [])
           [] "./Object 1" [entering "  " "Object 1/content.xml"]
           (KeyError
              "There is no item named 'Object 1/content.xml' in the archive")).
  - exists (Sample.object_xml (Sample.href_attr "./Object 1")).
    repeat split; reflexivity.
  - reflexivity.
  - reflexivity.
  - discriminate.
  - discriminate.
  - reflexivity.
  - reflexivity.
  - reflexivity.
Defined.

(** ** Exceptions and exit status *)

Section Exceptions.

Variable W : World.

Lemma ends_bind {A B : Type} (m : M A) (k : A -> M B) :
  ends_0_or_1 (snd m) ->
  (forall a, ends_0_or_1 (snd (k a))) ->
  ends_0_or_1 (snd (bind m k)).
Proof.
  destruct m as [tr [a| e |]]; cbn; intros Hm Hk.
  - specialize (Hk a). destruct (k a). exact Hk.
  - exact Hm.
  - contradiction.
Qed.

Lemma ends_for_each {A : Type} (l : list A) (body : A -> M unit) :
  (forall x, ends_0_or_1 (snd (body x))) ->
  ends_0_or_1 (snd (for_each l body)).
Proof.
  intros H. induction l as [|x l IH]; cbn [for_each]; [exact I|].
  apply ends_bind; [apply H | intros _; exact IH].
Qed.

Lemma get_tag_ends (content : pytext) (tag : string) :
  ends_0_or_1 (snd (get_tag W content tag)).
Proof.
  destruct (get_tag_cases W content tag) as [[v ->]| ->]; exact I.
Qed.

Lemma lift_ends {A : Type} (o : outcome A) : ends_0_or_1 (snd (lift o)).
Proof. destruct o; exact I. Qed.

Lemma qualified_ends (prefix : option string) (local : string) :
  ends_0_or_1 (snd (qualified prefix local)).
Proof. destruct prefix; exact I. Qed.

Lemma find_rec_call_ends (node : Element) (element : string)
  (result : list Element) :
  ends_0_or_1 (snd (find_rec_call W node element result)).
Proof.
  unfold find_rec_call. apply ends_bind; [exact I|].
  intros _. apply lift_ends.
Qed.

Lemma get_event_listeners_ends (content : Element)
  (script_prefix : option string) (indent : string) :
  ends_0_or_1 (snd (get_event_listeners W content script_prefix indent)).
Proof.
  unfold get_event_listeners.
  apply ends_bind; [apply qualified_ends|]. intros element.
  apply ends_bind; [apply find_rec_call_ends|]. intros result.
  apply ends_for_each. intros script. exact I.
Qed.

Lemma display_macro_flat_ends (od_file : string) :
  ends_0_or_1 (snd (display_macro_flat W od_file)).
Proof.
  unfold display_macro_flat.
  apply ends_bind; [apply lift_ends|]. intros raw_content.
  destruct (fromstring W _) as [root|]; [|exact I].
  apply ends_bind; [apply get_tag_ends|]. intros ooo_prefix.
  apply ends_bind; [apply qualified_ends|]. intros element.
  apply ends_bind; [apply find_rec_call_ends|]. intros [|library rest];
    exact I.
Qed.

Lemma display_event_listener_flat_ends (od_file indent : string) :
  ends_0_or_1 (snd (display_event_listener_flat W od_file indent)).
Proof.
  unfold display_event_listener_flat.
  apply ends_bind; [exact I|]. intros _.
  apply ends_bind; [apply lift_ends|]. intros raw_content.
  destruct (fromstring W _) as [root|]; [|exact I].
  apply ends_bind; [apply get_tag_ends|]. intros office_prefix.
  apply ends_bind; [apply get_tag_ends|]. intros script_prefix.
  destruct (negb (truthy office_prefix)); [exact I|].
  apply ends_bind; [|intros _; exact I].
  destruct (truthy script_prefix);
    [apply get_event_listeners_ends | exact I].
Qed.

(** The functions below [main] never call [sys.exit]. *)
Lemma exit_bind {A B : Type} (m : M A) (k : A -> M B) (status : nat) :
  snd m <> Raise (SystemExit status) ->
  (forall a, snd (k a) <> Raise (SystemExit status)) ->
  snd (bind m k) <> Raise (SystemExit status).
Proof.
  destruct m as [tr [a| e |]]; cbn; intros Hm Hk.
  - specialize (Hk a). destruct (k a). exact Hk.
  - intros H. apply Hm. injection H as ->. reflexivity.
  - discriminate.
Qed.

Lemma exit_for_each {A : Type} (l : list A) (body : A -> M unit)
  (status : nat) :
  (forall x, snd (body x) <> Raise (SystemExit status)) ->
  snd (for_each l body) <> Raise (SystemExit status).
Proof.
  intros H. induction l as [|x l IH]; cbn [for_each]; [discriminate|].
  apply exit_bind; [apply H | intros _; exact IH].
Qed.

Lemma get_tag_exit (content : pytext) (tag : string) (status : nat) :
  snd (get_tag W content tag) <> Raise (SystemExit status).
Proof.
  destruct (get_tag_cases W content tag) as [[v ->]| ->]; discriminate.
Qed.

Lemma find_rec_call_exit (node : Element) (element : string)
  (result : list Element) (status : nat) :
  snd (find_rec_call W node element result) <> Raise (SystemExit status).
Proof.
  unfold find_rec_call. apply exit_bind; [discriminate|].
  intros _. destruct (find_rec W node element result); discriminate.
Qed.

Lemma get_event_listeners_exit (content : Element)
  (script_prefix : option string) (indent : string) (status : nat) :
  snd (get_event_listeners W content script_prefix indent)
  <> Raise (SystemExit status).
Proof.
  unfold get_event_listeners.
  apply exit_bind; [destruct script_prefix; discriminate|]. intros element.
  apply exit_bind; [apply find_rec_call_exit|]. intros result.
  apply exit_for_each. intros script. discriminate.
Qed.

Lemma display_event_listener_od_exit (od_zipfile : ZipFile) (status : nat) :
  forall fuel content_path indent,
    snd (display_event_listener_od W fuel od_zipfile content_path indent)
    <> Raise (SystemExit status).
Proof.
  induction fuel as [|fuel IH]; intros content_path indent;
    cbn [display_event_listener_od]; [discriminate|].
  apply exit_bind; [discriminate|]. intros _.
  apply exit_bind.
  { unfold zip_read. destruct (find _ _); [|discriminate].
    destruct (member_fault W _); discriminate. }
  intros raw.
  destruct (fromstring W (Bytes raw)) as [root|]; [|discriminate].
  apply exit_bind; [apply get_tag_exit|]. intros office_prefix.
  apply exit_bind; [apply get_tag_exit|]. intros script_prefix.
  apply exit_bind; [apply get_tag_exit|]. intros draw_prefix.
  apply exit_bind; [apply get_tag_exit|]. intros xlink_prefix.
  destruct (negb (truthy office_prefix)); [discriminate|].
  apply exit_bind.
  { destruct (truthy script_prefix);
      [apply get_event_listeners_exit | discriminate]. }
  intros _. apply exit_bind; [|intros _; discriminate].
  destruct (truthy draw_prefix && truthy xlink_prefix); [|discriminate].
  apply exit_bind.
  { unfold get_ole_objects.
    apply exit_bind; [destruct draw_prefix; discriminate|].
    intros element. apply find_rec_call_exit. }
  intros ole_objects. apply exit_for_each. intros ole_object.
  apply exit_bind; [destruct xlink_prefix; discriminate|]. intros key.
  apply exit_bind; [destruct (dict_get _ _); discriminate|].
  intros draw_href.
  apply exit_bind; [apply IH | intros _; discriminate].
Qed.

Lemma display_event_listener_od_ends (fuel : nat) (od_zipfile : ZipFile)
  (content_path indent : string) :
  3 * max_name_length od_zipfile < fuel ->
  ends_0_or_1
    (snd (display_event_listener_od W fuel od_zipfile content_path indent)).
Proof.
  intros Hb. destruct fuel as [|fuel]; [lia|].
  pose proof (display_event_listener_od_finished W od_zipfile fuel
                content_path indent) as F.
  pose proof (fun status =>
                display_event_listener_od_exit od_zipfile status (S fuel)
                  content_path indent) as R.
  destruct (snd (display_event_listener_od W (S fuel) od_zipfile content_path
                   indent)) as [v| e |]; cbn.
  - exact I.
  - destruct e; try exact I. exfalso. now apply (R status).
  - apply F; [lia | reflexivity].
Qed.

(** X11: [main] always comes to an end, with exit status 0 or 1.  With
    fuel above three times the longest member name of the archive it
    opens, the run returns (status 0), leaves through [sys.exit(1)], or
    stops with an unhandled exception (status 1). *)
Theorem main_exit_status (fuel : nat) (od_path : string) :
  (forall od_zipfile, open_zipfile W od_path = ZipOpened od_zipfile ->
                      3 * max_name_length od_zipfile < fuel) ->
  exit_status (snd (main W fuel od_path)) = Some 0
  \/ exit_status (snd (main W fuel od_path)) = Some 1.
Proof.
  intros Hb.
  assert (H : ends_0_or_1 (snd (main W fuel od_path))).
  { unfold main. apply ends_bind.
    - destruct (negb (path_exists W od_path)); cbn; [lia | exact I].
    - intros _. destruct (open_zipfile W od_path) as [z | | err |] eqn:Ez.
      + apply ends_bind; [exact I|]. intros _.
        apply ends_bind.
        { unfold display_macro_od. rewrite display_macro_od_loop_eq.
          destruct (existsb qualifies (namelist z)); exact I. }
        intros is_macro. apply ends_bind; [|intros; exact I].
        destruct is_macro; [|exact I].
        apply ends_bind; [|intros; exact I].
        apply display_event_listener_od_ends, Hb. reflexivity.
      + cbn. lia.
      + cbn. lia.
      + apply ends_bind; [exact I|]. intros _.
        apply ends_bind; [apply display_macro_flat_ends|].
        intros is_macro. apply ends_bind; [|intros; exact I].
        destruct is_macro; [|exact I].
        apply ends_bind; [|intros; exact I].
        apply display_event_listener_flat_ends. }
  destruct (snd (main W fuel od_path)) as [[]| e |]; cbn in H |- *.
  - now left.
  - destruct e; try (now right).
    assert (status = 0 \/ status = 1) as [-> | ->] by lia; tauto.
  - contradiction.
Qed.

(** X12: an archive none of whose member names contains [Basic/] or
    [Scripts/] is not inspected any further: [main] logs its parsing and
    closing lines only and returns, whatever the content streams hold and
    even when [content.xml] is missing. *)
Theorem main_macro_free_archive (fuel : nat) (od_path : string)
  (od_zipfile : ZipFile) :
  path_exists W od_path = true ->
  open_zipfile W od_path = ZipOpened od_zipfile ->
  existsb qualifies (namelist od_zipfile) = false ->
  main W fuel od_path
  = ([Log WARNING "> Parsing OpenDocument %s" [AStr od_path];
      Log WARNING "> Closing OpenDocument %s" [AStr od_path]],
     Ret tt).
Proof.
  intros He Hz Hq. unfold main, display_macro_od.
  rewrite He, Hz, display_macro_od_loop_eq, Hq. reflexivity.
Qed.

(** X13: the three fatal inputs.  A path that does not exist, an archive
    that cannot be read, and an archive that needs the ZIP64 extensions
    each produce one critical record (for the last one the text of the
    library's error) and end the run with [sys.exit(1)] before any
    detector or inspector has run. *)
Theorem main_fatal_inputs (fuel : nat) (od_path : string) :
  (path_exists W od_path = false ->
   main W fuel od_path
   = ([Log CRITICAL "%s is not a file..." [AStr od_path]],
      Raise (SystemExit 1)))
  /\ (path_exists W od_path = true ->
      open_zipfile W od_path = ZipIOError ->
      main W fuel od_path = ([corrupted], Raise (SystemExit 1)))
  /\ (forall err,
        path_exists W od_path = true ->
        open_zipfile W od_path = ZipLargeZipFile err ->
        main W fuel od_path = ([Log CRITICAL err []], Raise (SystemExit 1))).
Proof.
  split; [|split].
  - intros He. unfold main. rewrite He. reflexivity.
  - intros He Hz. unfold main. rewrite He, Hz. reflexivity.
  - intros err He Hz. unfold main. rewrite He, Hz. reflexivity.
Qed.

End Exceptions.

Lemma main_exit_status_witness :
  exit_status (snd (main Cases.world 100 "cyclic.odt")) = Some 0
  \/ exit_status (snd (main Cases.world 100 "cyclic.odt")) = Some 1.
Proof.
  apply (main_exit_status Cases.world 100 "cyclic.odt").
  intros z Hz. injection Hz as <-. vm_compute. lia.
Defined.

Lemma main_macro_free_archive_witness :
  main Cases.world 0 "clean.odt"
  = ([Log WARNING "> Parsing OpenDocument %s" [AStr "clean.odt"];
      Log WARNING "> Closing OpenDocument %s" [AStr "clean.odt"]],
     Ret tt).
Proof.
  apply (main_macro_free_archive Cases.world 0 "clean.odt" Sample.macro_free);
    reflexivity.
Defined.

Lemma main_fatal_inputs_witness :
  main Cases.world 0 "missing.odt"
  = ([Log CRITICAL "%s is not a file..." [AStr "missing.odt"]],
     Raise (SystemExit 1))
  /\ main Cases.world 0 "unreadable.odt" = ([corrupted], Raise (SystemExit 1))
  /\ main Cases.world 0 "huge.odt"
     = ([Log CRITICAL "Filesize would require ZIP64 extensions" []],
        Raise (SystemExit 1)).
Proof.
  destruct (main_fatal_inputs Cases.world 0 "missing.odt") as (H1 & _ & _).
  destruct (main_fatal_inputs Cases.world 0 "unreadable.odt") as (_ & H2 & _).
  destruct (main_fatal_inputs Cases.world 0 "huge.odt") as (_ & _ & H3).
  split; [exact (H1 eq_refl)|]. split; [exact (H2 eq_refl eq_refl)|].
  exact (H3 _ eq_refl eq_refl).
Defined.
(** ** What the detectors and inspectors report *)

Section Reports.

Variable W : World.





End Reports.




(** ** Invariants of the inspection log *)

Section LogInvariants.

Variable W : World.

Lemma count_app (p : event -> bool) (t1 t2 : list event) :
  count p (t1 ++ t2) = count p t1 + count p t2.
Proof. unfold count. now rewrite filter_app, length_app. Qed.

Lemma returns_balance_bind {A B : Type} (o1 c1 o2 c2 o c : nat)
  (m : M A) (k : A -> M B) :
  o1 + o2 + c = c1 + c2 + o ->
  returns_balance o1 c1 m ->
  (forall a, returns_balance o2 c2 (k a)) ->
  returns_balance o c (bind m k).
Proof.
  intros Hoc Hm Hk trace b. destruct m as [t1 [a| e |]]; cbn; try discriminate.
  destruct (k a) as [t2 r] eqn:E. intros H. injection H as <- ->.
  specialize (Hm t1 a eq_refl). specialize (Hk a t2 b E).
  rewrite !count_app. lia.
Qed.

Lemma returns_balance_silent {A : Type} (m : M A) :
  fst m = [] -> returns_balance 0 0 m.
Proof.
  destruct m as [t r]. cbn. intros -> trace a H. injection H as <- _.
  reflexivity.
Qed.

Lemma returns_balance_log {A : Type} (ev : event) (a : A) :
  returns_balance (count opens [ev]) (count closes [ev]) ([ev], Ret a).
Proof. intros trace b H. injection H as <- _. lia. Qed.

Lemma returns_balance_for_each {A : Type} (l : list A) (body : A -> M unit) :
  (forall x, returns_balance 0 0 (body x)) ->
  returns_balance 0 0 (for_each l body).
Proof.
  intros H. induction l as [|x l IH]; cbn [for_each].
  - now apply returns_balance_silent.
  - apply (returns_balance_bind 0 0 0 0); [reflexivity | apply H | intros _; exact IH].
Qed.

Lemma get_tag_silent (content : pytext) (tag : string) :
  fst (get_tag W content tag) = [].
Proof.
  unfold get_tag. generalize (PyStr.split
    match content with Bytes b => decode_ignore W b | Str s => s end " ").
  intros tokens. induction tokens as [|t tokens IH]; cbn; [reflexivity|].
  destruct (PyStr.startswith t _); [|exact IH].
  destruct (PyStr.item_neg2 _); reflexivity.
Qed.

(** A search leaves its ghost event and nothing else in the log, whether
    it returns or fails. *)
Lemma find_rec_call_trace (node : Element) (element : string)
  (result : list Element) :
  fst (find_rec_call W node element result) = [Searched element].
Proof.
  unfold find_rec_call. destruct (find_rec W node element result);
    reflexivity.
Qed.

Lemma find_rec_call_balance (node : Element) (element : string)
  (result : list Element) :
  returns_balance 0 0 (find_rec_call W node element result).
Proof.
  pose proof (find_rec_call_trace node element result) as T.
  destruct (find_rec_call W node element result) as [t r]. cbn in T.
  subst t. intros trace a H. injection H as <- _. reflexivity.
Qed.

Lemma get_event_listeners_balance (root : Element)
  (script_prefix : option string) (indent : string) :
  returns_balance 0 0 (get_event_listeners W root script_prefix indent).
Proof.
  unfold get_event_listeners.
  apply (returns_balance_bind 0 0 0 0); [reflexivity | |].
  { apply returns_balance_silent. destruct script_prefix; reflexivity. }
  intros element. apply (returns_balance_bind 0 0 0 0);
    [reflexivity | apply find_rec_call_balance |].
  intros found. apply returns_balance_for_each. intros script.
  intros trace a H. injection H as <- _. reflexivity.
Qed.

Lemma listeners_balance (root : Element) (script_prefix : option string)
  (indent : string) :
  returns_balance 0 0
    (if truthy script_prefix
     then get_event_listeners W root script_prefix indent
     else ret tt).
Proof.
  destruct (truthy script_prefix);
    [apply get_event_listeners_balance | now apply returns_balance_silent].
Qed.

Lemma display_event_listener_od_balance (od_zipfile : ZipFile) :
  forall fuel content_path indent,
    returns_balance 0 0
      (display_event_listener_od W fuel od_zipfile content_path indent).
Proof.
  induction fuel as [|fuel IH]; intros content_path indent;
    cbn [display_event_listener_od]; [intros ? ? H; discriminate H|].
  apply (returns_balance_bind 1 0 0 1); [reflexivity | apply returns_balance_log |].
  intros _. apply (returns_balance_bind 0 0 0 1); [reflexivity | |].
  { apply returns_balance_silent. unfold zip_read.
    destruct (find _ _); [|reflexivity].
    destruct (member_fault W _); reflexivity. }
  intros raw. destruct (fromstring W (Bytes raw)) as [root|];
    [|apply returns_balance_log].
  apply (returns_balance_bind 0 0 0 1);
    [reflexivity | apply returns_balance_silent, get_tag_silent |].
  intros office_prefix. apply (returns_balance_bind 0 0 0 1);
    [reflexivity | apply returns_balance_silent, get_tag_silent |].
  intros script_prefix. apply (returns_balance_bind 0 0 0 1);
    [reflexivity | apply returns_balance_silent, get_tag_silent |].
  intros draw_prefix. apply (returns_balance_bind 0 0 0 1);
    [reflexivity | apply returns_balance_silent, get_tag_silent |].
  intros xlink_prefix.
  destruct (negb (truthy office_prefix)); [apply returns_balance_log|].
  apply (returns_balance_bind 0 0 0 1);
    [reflexivity | apply listeners_balance |].
  intros _. apply (returns_balance_bind 0 0 0 1);
    [reflexivity | | intros _; apply returns_balance_log].
  destruct (truthy draw_prefix && truthy xlink_prefix);
    [|now apply returns_balance_silent].
  apply (returns_balance_bind 0 0 0 0); [reflexivity | |].
  { unfold get_ole_objects.
    apply (returns_balance_bind 0 0 0 0); [reflexivity | |].
    - apply returns_balance_silent. destruct draw_prefix; reflexivity.
    - intros element. apply find_rec_call_balance. }
  intros ole_objects. apply returns_balance_for_each. intros ole_object.
  apply (returns_balance_bind 0 0 0 0); [reflexivity | |].
  { apply returns_balance_silent. destruct xlink_prefix; reflexivity. }
  intros key. apply (returns_balance_bind 0 0 0 0); [reflexivity | |].
  { apply returns_balance_silent. destruct (dict_get _ _); reflexivity. }
  intros draw_href. apply (returns_balance_bind 0 0 0 0);
    [reflexivity | apply IH | intros _; now apply returns_balance_silent].
Qed.

(** X17: in the log of a zip inspection that returns, every entering line
    is matched: the number of entering lines equals the number of exiting
    lines and corruption notices taken together.  A log in which they
    differ belongs to a run that was ended by an exception. *)
Theorem display_event_listener_od_log_balanced (fuel : nat)
  (od_zipfile : ZipFile) (content_path indent : string)
  (trace : list event) (result : bool) :
  display_event_listener_od W fuel od_zipfile content_path indent
  = (trace, Ret result) ->
  count opens trace = count closes trace.
Proof.
  intros H.
  pose proof (display_event_listener_od_balance od_zipfile fuel content_path
                indent trace result H). lia.
Qed.

Lemma get_content_zip_path_endswith (content_path : string) :
  PyStr.endswith (get_content_zip_path content_path) "content.xml" = true.
Proof.
  unfold get_content_zip_path.
  destruct (if PyStr.startswith _ "/" then _ else _) as [|c r];
    [reflexivity|].
  cbn [String.eqb]. change "/content.xml" with ("/" ++ "content.xml").
  rewrite <- append_assoc. apply endswith_app.
Qed.

Lemma trace_bind {A B : Type} (P : event -> Prop) (m : M A) (k : A -> M B) :
  Forall P (fst m) -> (forall a, Forall P (fst (k a))) ->
  Forall P (fst (bind m k)).
Proof.
  destruct m as [t [a| e |]]; cbn; intros Hm Hk; try exact Hm.
  specialize (Hk a). destruct (k a). cbn in *. now apply Forall_app.
Qed.

Lemma trace_for_each {A : Type} (P : event -> Prop) (l : list A)
  (body : A -> M unit) :
  (forall x, Forall P (fst (body x))) -> Forall P (fst (for_each l body)).
Proof.
  intros H. induction l as [|x l IH]; cbn [for_each]; [constructor|].
  apply trace_bind; [apply H | intros _; exact IH].
Qed.

Lemma display_event_listener_od_entered (od_zipfile : ZipFile) :
  forall fuel content_path indent,
    Forall (fun ev => forall indent' name,
                        ev = entering indent' name ->
                        PyStr.endswith name "content.xml" = true)
      (fst (display_event_listener_od W fuel od_zipfile content_path indent)).
Proof.
  induction fuel as [|fuel IH]; intros content_path indent;
    cbn [display_event_listener_od]; [constructor|].
  apply trace_bind.
  { repeat constructor. intros indent' name H. injection H as _ <-.
    apply get_content_zip_path_endswith. }
  intros _. apply trace_bind.
  { unfold zip_read. destruct (find _ _); [|constructor].
    destruct (member_fault W _); constructor. }
  intros raw. destruct (fromstring W (Bytes raw)) as [root|].
  2:{ repeat constructor. intros ? ? H. discriminate H. }
  apply trace_bind; [rewrite get_tag_silent; constructor | intros office_prefix].
  apply trace_bind; [rewrite get_tag_silent; constructor | intros script_prefix].
  apply trace_bind; [rewrite get_tag_silent; constructor | intros draw_prefix].
  apply trace_bind; [rewrite get_tag_silent; constructor | intros xlink_prefix].
  destruct (negb (truthy office_prefix)).
  { repeat constructor. intros ? ? H. discriminate H. }
  apply trace_bind.
  { destruct (truthy script_prefix); [|constructor].
    unfold get_event_listeners.
    apply trace_bind; [destruct script_prefix; constructor | intros element].
    apply trace_bind.
    - rewrite find_rec_call_trace. repeat constructor.
      intros ? ? H. discriminate H.
    - intros found. apply trace_for_each. intros script.
      repeat constructor. intros ? ? H. discriminate H. }
  intros _. apply trace_bind.
  2:{ intros _. repeat constructor. intros ? ? H. discriminate H. }
  destruct (truthy draw_prefix && truthy xlink_prefix); [|constructor].
  apply trace_bind.
  { unfold get_ole_objects.
    apply trace_bind; [destruct draw_prefix; constructor | intros element].
    rewrite find_rec_call_trace. repeat constructor.
    intros ? ? H. discriminate H. }
  intros ole_objects. apply trace_for_each. intros ole_object.
  apply trace_bind; [destruct xlink_prefix; constructor | intros key].
  apply trace_bind; [destruct (dict_get _ _); constructor | intros draw_href].
  apply trace_bind; [apply IH | intros _; constructor].
Qed.

(** X18: the zip inspector enters content streams only.  Every entering
    line of a run, at any depth and also in a run that ends with an
    exception, names a member that ends in [content.xml]. *)
Theorem display_event_listener_od_enters_content (fuel : nat)
  (od_zipfile : ZipFile) (content_path indent indent' name : string) :
  In (entering indent' name)
    (fst (display_event_listener_od W fuel od_zipfile content_path indent)) ->
  PyStr.endswith name "content.xml" = true.
Proof.
  intros H.
  pose proof (display_event_listener_od_entered od_zipfile fuel content_path
                indent) as F.
  rewrite Forall_forall in F. exact (F _ H indent' name eq_refl).
Qed.

End LogInvariants.

Lemma display_event_listener_od_log_balanced_witness :
  count opens (fst (display_event_listener_od Cases.world 2
                      Sample.nested_archive "" ""))
  = count closes (fst (display_event_listener_od Cases.world 2
                         Sample.nested_archive "" "")).
Proof.
  apply (display_event_listener_od_log_balanced Cases.world 2
           Sample.nested_archive "" "" _ true).
  reflexivity.
Defined.

Lemma display_event_listener_od_enters_content_witness :
  PyStr.endswith "Object 1/content.xml" "content.xml" = true.
Proof.
  apply (display_event_listener_od_enters_content Cases.world 2
           Sample.nested_archive "" "" "  " "Object 1/content.xml").
  vm_compute. tauto.
Defined.
